(** * ghostmark: the JSX annotation engine of [src/index.ts]

    A shallow embedding of the plugin's per-tag pipeline (classifier,
    content extractor, serializer, offset resolver), of the tree traversal
    that drives it and of the per-file [transform] hook, followed by the
    properties of the specification that concern them.

    Conventions.
    - A JavaScript string is a [string] whose characters are its UTF-16 code
      units, restricted to the range 0..255; offsets into the source text
      count these code units.
    - [undefined] and [null] are [None]; the operators [?.] and [??] become
      matches on [option].
    - Line numbers, columns, offsets and counters are natural numbers ([N]).
    - The collaborators the plugin imports (the parser, the [path] module,
      the working directory) are the fields of a [Host]. *)

From Stdlib Require Import NArith Ascii DecimalString.
From stdpp Require Import base option list strings gmap.

Local Open Scope N_scope.
#[local] Set Warnings "-register-all".

(** ** JavaScript primitives used by the plugin *)

Module Js.

Definition dquote : string := String "034"%char "".

(** A value used as a condition: a string is truthy when it is not empty. *)
Definition truthy (s : string) : bool := negb (String.eqb s "").

Definition truthy_opt (o : option string) : bool :=
  match o with
  | Some s => truthy s
  | None => false
  end.

(** [o ?? d] *)
Definition nullish {A} (o : option A) (d : A) : A :=
  match o with
  | Some a => a
  | None => d
  end.

(** Template-literal rendering of a non-negative integer. *)
Definition number_to_string (n : N) : string :=
  NilEmpty.string_of_uint (N.to_uint n).

(** [Array.prototype.join] *)
Definition join (sep : string) (l : list string) : string :=
  String.concat sep l.

(** [String.prototype.includes] *)
Fixpoint includes (s sub : string) : bool :=
  String.prefix sub s ||
  match s with
  | "" => false
  | String _ s' => includes s' sub
  end.

(** White space and line terminators in the modelled range: TAB, LF, VT,
    FF, CR, SPACE and NO-BREAK SPACE. *)
Definition is_white_space (c : ascii) : bool :=
  let n := N_of_ascii c in
  ((9 <=? n) && (n <=? 13)) || (n =? 32) || (n =? 160).

Fixpoint trimStart (s : string) : string :=
  match s with
  | "" => ""
  | String c s' => if is_white_space c then trimStart s' else s
  end.

Definition trimEnd (s : string) : string :=
  String.rev (trimStart (String.rev s)).

(** [String.prototype.trim] *)
Definition trim (s : string) : string := trimEnd (trimStart s).

Definition hex_digit (upper : bool) (d : N) : ascii :=
  if d <? 10 then ascii_of_N (48 + d)
  else ascii_of_N ((if upper then 55 else 87) + d).

Definition hex2 (upper : bool) (n : N) : string :=
  String (hex_digit upper (n / 16)) (String (hex_digit upper (n mod 16)) "").

(** [QuoteJSONString], without the surrounding quotes. *)
Definition json_escape_char (c : ascii) : string :=
  let n := N_of_ascii c in
  if n =? 34 then "\" +:+ dquote
  else if n =? 92 then "\\"
  else if n =? 8 then "\b"
  else if n =? 12 then "\f"
  else if n =? 10 then "\n"
  else if n =? 13 then "\r"
  else if n =? 9 then "\t"
  else if n <? 32 then "\u00" +:+ hex2 false n
  else String c "".

Fixpoint json_escape (s : string) : string :=
  match s with
  | "" => ""
  | String c s' => json_escape_char c +:+ json_escape s'
  end.

Definition json_string (s : string) : string :=
  dquote +:+ json_escape s +:+ dquote.

(** [JSON.stringify] of an object given as its own properties in
    insertion order, all of them strings. *)
Definition json_object (props : list (string * string)) : string :=
  "{" +:+ join "," (map (fun kv => json_string kv.1 +:+ ":" +:+ json_string kv.2) props)
      +:+ "}".

Definition uri_unreserved (c : ascii) : bool :=
  let n := N_of_ascii c in
  ((48 <=? n) && (n <=? 57)) || ((65 <=? n) && (n <=? 90))
  || ((97 <=? n) && (n <=? 122))
  || existsb (N.eqb n) [45; 95; 46; 33; 126; 42; 39; 40; 41].

(** One code unit, percent-encoded through its UTF-8 bytes. *)
Definition uri_encode_char (c : ascii) : string :=
  let n := N_of_ascii c in
  if uri_unreserved c then String c ""
  else if n <? 128 then "%" +:+ hex2 true n
  else "%" +:+ hex2 true (192 + n / 64) +:+ "%" +:+ hex2 true (128 + n mod 64).

Fixpoint encodeURIComponent (s : string) : string :=
  match s with
  | "" => ""
  | String c s' => uri_encode_char c +:+ encodeURIComponent s'
  end.

End Js.

(** ** Data model (the interfaces of [index.ts]) *)

Record GhostmarkOptions := {
  opt_includeId : option bool;
  opt_includeName : option bool;
  opt_includePath : option bool;
  opt_includeLine : option bool;
  opt_includeFile : option bool;
  opt_includeContent : option bool;
  opt_tagPrefix : option string;
  opt_include : option (list string);
  opt_exclude : option (list string);
  opt_useRelativePath : option bool;
  opt_debug : option bool;
  opt_filter3DElements : option bool
}.

(** [Required<GhostmarkOptions>] *)
Record ResolvedOptions := {
  includeId : bool;
  includeName : bool;
  includePath : bool;
  includeLine : bool;
  includeFile : bool;
  includeContent : bool;
  tagPrefix : string;
  include : list string;
  exclude : list string;
  useRelativePath : bool;
  debug : bool;
  filter3DElements : bool
}.

Record JSXLocation := { line : N; column : N }.

Record Loc := { start : option JSXLocation }.

(** An object read through its [name] property. *)
Record Named := { name : option string }.

Record JSXName := {
  name_type : string;
  name_name : option string;
  object : option Named;
  property : option Named;
  name_end : option N
}.

Record TypeParameters := { tp_end : option N }.

Record Expression := { expr_type : string; expr_value : option string }.

Record AttributeValue := {
  val_type : string;
  val_value : option string;
  val_expression : option Expression
}.

Record JSXAttribute := {
  attr_type : string;
  attr_name : option Named;
  attr_value : option AttributeValue
}.

Record JSXNode := {
  jsx_name : JSXName;
  loc : option Loc;
  attributes : list JSXAttribute;
  typeParameters : option TypeParameters
}.

Record JSXChild := {
  child_type : string;
  child_value : option string;
  child_expression : option Expression
}.

Record JSXElement := { children : option (list JSXChild) }.

Record ElementContent := {
  text : option string;
  placeholder : option string;
  className : option string
}.

Record ProcessingStats := {
  totalFiles : N;
  processedFiles : N;
  totalElements : N;
  skippedElements : N
}.

(** The descriptor handed to [buildDataAttributes]. *)
Record AttributeData := {
  elementName : string;
  filePath : string;
  fileName : string;
  data_line : N;
  data_col : N;
  content : ElementContent
}.

(** ** Classifier *)

Definition THREE_D_ELEMENTS : gset string := list_to_set [
  "mesh"; "group"; "scene"; "object3D";
  "geometry"; "bufferGeometry"; "boxGeometry"; "sphereGeometry";
  "planeGeometry"; "cylinderGeometry"; "coneGeometry"; "torusGeometry";
  "circleGeometry"; "ringGeometry"; "tubeGeometry"; "extrudeGeometry";
  "material"; "meshBasicMaterial"; "meshStandardMaterial";
  "meshPhysicalMaterial"; "meshLambertMaterial"; "meshPhongMaterial";
  "shaderMaterial"; "lineBasicMaterial"; "pointsMaterial";
  "ambientLight"; "directionalLight"; "pointLight"; "spotLight";
  "hemisphereLight"; "rectAreaLight";
  "perspectiveCamera"; "orthographicCamera";
  "OrbitControls"; "PerspectiveCamera"; "OrthographicCamera";
  "Stars"; "Sky"; "Environment"; "ContactShadows"; "BakeShadows";
  "SoftShadows"; "AccumulativeShadows"; "RandomizedLight";
  "Box"; "Sphere"; "Plane"; "Cylinder"; "Cone"; "Torus"; "Circle";
  "Text"; "Text3D"; "MeshReflectorMaterial"; "MeshWobbleMaterial";
  "MeshDistortMaterial"; "Float"; "Stage"; "Lightformer";
  "SpotLight"; "PointLight"; "DirectionalLight"; "AmbientLight"
].

Definition is3DElement (elementName : string) : bool :=
  bool_decide (elementName ∈ THREE_D_ELEMENTS).

Definition extractElementName (jsxNode : JSXNode) : option string :=
  let n := jsx_name jsxNode in
  if String.eqb (name_type n) "JSXIdentifier" then
    name_name n
  else if String.eqb (name_type n) "JSXMemberExpression" then
    let object := Js.nullish (object n ≫= name) "" in
    let property := Js.nullish (property n ≫= name) "" in
    Some (object +:+ "." +:+ property)
  else None.

Definition shouldSkipElement
    (elementName : option string) (options : ResolvedOptions) : bool :=
  match elementName with
  | None => true
  | Some elementName =>
    if negb (Js.truthy elementName) then true
    else if String.eqb elementName "Fragment"
            || String.eqb elementName "React.Fragment" then true
    else if filter3DElements options && is3DElement elementName then true
    else false
  end.

(** ** Content extractor *)

Definition extractElementAttributes
    (attributes : list JSXAttribute) : gmap string string :=
  foldl (fun (acc : gmap string string) attr =>
    if negb (String.eqb (attr_type attr) "JSXAttribute") then acc
    else match attr_name attr ≫= name with
    | None => acc
    | Some attrName =>
      if negb (Js.truthy attrName) then acc
      else match attr_value attr with
      | None => acc
      | Some v =>
        if String.eqb (val_type v) "StringLiteral" then
          <[attrName := Js.nullish (val_value v) ""]> acc
        else if String.eqb (val_type v) "JSXExpressionContainer"
                && bool_decide (expr_type <$> val_expression v = Some "StringLiteral")
        then <[attrName := Js.nullish (val_expression v ≫= expr_value) ""]> acc
        else acc
      end
    end) ∅ attributes.

(** The callback of [children.map] in [extractTextContent]. *)
Definition childText (child : JSXChild) : string :=
  if String.eqb (child_type child) "JSXText" then
    Js.nullish (Js.trim <$> child_value child) ""
  else if String.eqb (child_type child) "JSXExpressionContainer"
          && bool_decide (expr_type <$> child_expression child = Some "StringLiteral")
  then Js.nullish (child_expression child ≫= expr_value) ""
  else "".

Definition extractTextContent (element : option JSXElement) : string :=
  match element ≫= children with
  | None => ""
  | Some children =>
    Js.trim (Js.join " " (List.filter Js.truthy (map childText children)))
  end.

(** ** Descriptor builder and attribute serializer *)

Definition buildContentObject
    (textContent : string) (attributes : gmap string string) : ElementContent :=
  {| text := if Js.truthy textContent then Some textContent else None;
     placeholder :=
       if Js.truthy_opt (attributes !! "placeholder")
       then attributes !! "placeholder" else None;
     className :=
       if Js.truthy_opt (attributes !! "className")
       then attributes !! "className" else None |}.

(** [Object.keys(content)] paired with the values, in insertion order. *)
Definition content_entries (c : ElementContent) : list (string * string) :=
  match text c with Some v => [("text", v)] | None => [] end ++
  match placeholder c with Some v => [("placeholder", v)] | None => [] end ++
  match className c with Some v => [("className", v)] | None => [] end.

(** [`data-${tagPrefix}-${facet}="${value}"`] *)
Definition dataAttribute (tagPrefix facet value : string) : string :=
  "data-" +:+ tagPrefix +:+ "-" +:+ facet +:+ "=" +:+ Js.dquote +:+ value +:+ Js.dquote.

(** The array [attributes] of [buildDataAttributes] after all the pushes. *)
Definition dataAttributeList
    (options : ResolvedOptions) (data : AttributeData) : list string :=
  let tagPrefix := tagPrefix options in
  let attributes : list string := [] in
  let attributes :=
    if includeId options then
      let componentId :=
        filePath data +:+ ":" +:+ Js.number_to_string (data_line data)
          +:+ ":" +:+ Js.number_to_string (data_col data) in
      attributes ++ [dataAttribute tagPrefix "id" componentId]
    else attributes in
  let attributes :=
    if includeName options
    then attributes ++ [dataAttribute tagPrefix "name" (elementName data)]
    else attributes in
  let attributes :=
    if includePath options
    then attributes ++ [dataAttribute tagPrefix "path" (filePath data)]
    else attributes in
  let attributes :=
    if includeLine options
    then attributes ++ [dataAttribute tagPrefix "line" (Js.number_to_string (data_line data))]
    else attributes in
  let attributes :=
    if includeFile options
    then attributes ++ [dataAttribute tagPrefix "file" (fileName data)]
    else attributes in
  let attributes :=
    if includeContent options && (0 <? N.of_nat (length (content_entries (content data))))
    then
      let encodedContent :=
        Js.encodeURIComponent (Js.json_object (content_entries (content data))) in
      attributes ++ [dataAttribute tagPrefix "content" encodedContent]
    else attributes in
  attributes.

Definition buildDataAttributes
    (options : ResolvedOptions) (data : AttributeData) : string :=
  let attributes := dataAttributeList options data in
  if 0 <? N.of_nat (length attributes)
  then " " +:+ Js.join " " attributes
  else "".

(** ** Offset resolver *)

Definition getInsertPosition (jsxNode : JSXNode) : N :=
  Js.nullish
    (match typeParameters jsxNode ≫= tp_end with
     | Some e => Some e
     | None => name_end (jsx_name jsxNode)
     end) 0.

(** ** Source editor *)

(** Modelled from the spec: the Source Editor of section 4.7, which the
    plugin delegates to the [magic-string] package (not part of the
    sources). The editor keeps the original text and the insertions in
    the order they were registered; the final text has every insertion
    immediately to the left of the original character at its offset,
    insertions at one offset in registration order. The contract covers
    offsets inside the text: for an offset past its end there is no
    final text. *)
Record MagicString := {
  original : string;
  insertions : list (N * string)
}.

Definition MagicString_new (code : string) : MagicString :=
  {| original := code; insertions := [] |}.

Definition appendLeft (index : N) (content : string) (ms : MagicString) : MagicString :=
  {| original := original ms; insertions := insertions ms ++ [(index, content)] |}.

Fixpoint inserted_at (i : N) (ins : list (N * string)) : string :=
  match ins with
  | [] => ""
  | (j, t) :: ins' => (if i =? j then t else "") +:+ inserted_at i ins'
  end.

Fixpoint splice (ins : list (N * string)) (i : N) (s : string) : string :=
  inserted_at i ins +:+
  match s with
  | "" => ""
  | String c s' => String c (splice ins (i + 1) s')
  end.

Definition toString (ms : MagicString) : option string :=
  if forallb (fun p => p.1 <=? N.of_nat (String.length (original ms))) (insertions ms)
  then Some (splice (insertions ms) 0 (original ms))
  else None.

(** ** Traversal controller *)

(** A node of the parsed tree as the walker sees it: its [type] tag (with
    the fields the plugin reads when the tag is [JSXElement] or
    [JSXOpeningElement]) and its sub-nodes in the order the walker visits
    them. *)
Inductive node :=
| JSXElementNode (element : JSXElement) (subnodes : list node)
| JSXOpeningElementNode (jsxNode : JSXNode) (subnodes : list node)
| OtherNode (subnodes : list node).

Definition subnodes (n : node) : list node :=
  match n with
  | JSXElementNode _ l | JSXOpeningElementNode _ l | OtherNode l => l
  end.

(** The variables the [enter] callback of [transform] closes over. *)
Record WalkState := {
  magicString : MagicString;
  changedElementsCount : N;
  currentElement : option JSXElement;
  stats : ProcessingStats
}.

Definition set_currentElement (e : option JSXElement) (st : WalkState) : WalkState :=
  {| magicString := magicString st;
     changedElementsCount := changedElementsCount st;
     currentElement := e;
     stats := stats st |}.

Definition incr_skippedElements (st : WalkState) : WalkState :=
  {| magicString := magicString st;
     changedElementsCount := changedElementsCount st;
     currentElement := currentElement st;
     stats := {| totalFiles := totalFiles (stats st);
                 processedFiles := processedFiles (stats st);
                 totalElements := totalElements (stats st);
                 skippedElements := skippedElements (stats st) + 1 |} |}.

Definition tag_element (insertPosition : N) (attributes : string) (st : WalkState) : WalkState :=
  {| magicString := appendLeft insertPosition attributes (magicString st);
     changedElementsCount := changedElementsCount st + 1;
     currentElement := currentElement st;
     stats := stats st |}.

Section Traversal.

Variable resolvedOptions : ResolvedOptions.
Variables filePath fileName : string.

(** The body of [if (node.type === 'JSXOpeningElement')]. *)
Definition enterOpening (jsxNode : JSXNode) (st : WalkState) : WalkState :=
  let elementName := extractElementName jsxNode in
  if shouldSkipElement elementName resolvedOptions then
    if Js.truthy_opt elementName then incr_skippedElements st else st
  else
    match elementName with
    | None => st (* excluded by [shouldSkipElement] *)
    | Some elementName =>
      let elementAttributes := extractElementAttributes (attributes jsxNode) in
      let textContent := extractTextContent (currentElement st) in
      let content := buildContentObject textContent elementAttributes in
      let line := Js.nullish (line <$> (loc jsxNode ≫= start)) 0 in
      let col := Js.nullish (column <$> (loc jsxNode ≫= start)) 0 in
      let attributes :=
        buildDataAttributes resolvedOptions
          (Build_AttributeData elementName filePath fileName line col content) in
      if Js.truthy attributes then
        let insertPosition := getInsertPosition jsxNode in
        tag_element insertPosition attributes st
      else st
    end.

Definition enter (n : node) (st : WalkState) : WalkState :=
  let st :=
    match n with
    | JSXElementNode element _ => set_currentElement (Some element) st
    | _ => st
    end in
  match n with
  | JSXOpeningElementNode jsxNode _ => enterOpening jsxNode st
  | _ => st
  end.

(** [walk(ast, { enter })]: a node is entered, then its sub-nodes are
    walked in order; there is no [leave] callback. *)
Fixpoint walk (n : node) (st : WalkState) : WalkState :=
  foldl (fun st k => walk k st) (enter n st) (subnodes n).

End Traversal.

(** ** The plugin *)

(** What [index.ts] imports: [parse] of [@babel/parser] ([None] when it
    throws), [path.extname], [path.basename], [path.relative] and
    [process.cwd()]. *)
Record Host := {
  parse : string -> option node;
  path_extname : string -> string;
  path_basename : string -> string;
  path_relative : string -> string -> string;
  cwd : string
}.

Definition shouldProcessFile
    (h : Host) (filePath : string) (options : ResolvedOptions) : bool :=
  let ext := path_extname h filePath in
  if negb (bool_decide (ext ∈ include options)) then false
  else negb (existsb (fun excludePath => Js.includes filePath excludePath) (exclude options)).

(** [resolvedOptions] of [ghostmark(options)] *)
Definition resolveOptions (options : GhostmarkOptions) : ResolvedOptions :=
  {| includeId := Js.nullish (opt_includeId options) true;
     includeName := Js.nullish (opt_includeName options) true;
     includePath := Js.nullish (opt_includePath options) true;
     includeLine := Js.nullish (opt_includeLine options) true;
     includeFile := Js.nullish (opt_includeFile options) true;
     includeContent := Js.nullish (opt_includeContent options) true;
     tagPrefix := Js.nullish (opt_tagPrefix options) "gm";
     include := Js.nullish (opt_include options) [".jsx"; ".tsx"];
     exclude := Js.nullish (opt_exclude options) ["node_modules"];
     useRelativePath := Js.nullish (opt_useRelativePath options) true;
     debug := Js.nullish (opt_debug options) false;
     filter3DElements := Js.nullish (opt_filter3DElements options) true |}.

(** [ghostmark()] *)
Definition defaultOptions : ResolvedOptions :=
  resolveOptions (Build_GhostmarkOptions None None None None None None
                    None None None None None None).

(** [stats] of a fresh plugin instance. *)
Definition initialStats : ProcessingStats :=
  {| totalFiles := 0; processedFiles := 0; totalElements := 0; skippedElements := 0 |}.

(** The object [transform] returns; the source map is not modelled. *)
Record TransformResult := { code : option string }.

(** [transform(code, id)], with the plugin's [stats] threaded through. *)
Definition transform
    (h : Host) (resolvedOptions : ResolvedOptions)
    (code id : string) (pluginStats : ProcessingStats)
  : option TransformResult * ProcessingStats :=
  if negb (shouldProcessFile h id resolvedOptions) then (None, pluginStats)
  else
    let seen :=
      {| totalFiles := totalFiles pluginStats + 1;
         processedFiles := processedFiles pluginStats;
         totalElements := totalElements pluginStats;
         skippedElements := skippedElements pluginStats |} in
    let filePath :=
      if useRelativePath resolvedOptions then path_relative h (cwd h) id else id in
    let fileName := path_basename h id in
    match parse h code with
    | Some ast =>
      let st :=
        walk resolvedOptions filePath fileName ast
          {| magicString := MagicString_new code;
             changedElementsCount := 0;
             currentElement := None;
             stats := seen |} in
      (Some {| code := toString (magicString st) |},
       {| totalFiles := totalFiles (stats st);
          processedFiles := processedFiles (stats st) + 1;
          totalElements := totalElements (stats st) + changedElementsCount st;
          skippedElements := skippedElements (stats st) |})
    | None =>
      (* catch (error) *)
      (None,
       {| totalFiles := totalFiles seen;
          processedFiles := processedFiles seen + 1;
          totalElements := totalElements seen;
          skippedElements := skippedElements seen |})
    end.

(** ** The specification's reading of the same operations *)

(** *** Text content, as section 4.2 words it *)

Inductive ChildKind :=
| LiteralText (value : string)
| LiteralString (value : string)
| Dynamic.

Definition childKind (child : JSXChild) : ChildKind :=
  if String.eqb (child_type child) "JSXText" then
    LiteralText (Js.nullish (child_value child) "")
  else if String.eqb (child_type child) "JSXExpressionContainer" then
    match child_expression child with
    | Some e =>
      if String.eqb (expr_type e) "StringLiteral"
      then LiteralString (Js.nullish (expr_value e) "")
      else Dynamic
    | None => Dynamic
    end
  else Dynamic.

(** The non-empty pieces, in document order. *)
Fixpoint specPieces (cs : list JSXChild) : list string :=
  match cs with
  | [] => []
  | c :: cs' =>
    match childKind c with
    | LiteralText v =>
      if String.eqb (Js.trim v) "" then specPieces cs' else Js.trim v :: specPieces cs'
    | LiteralString v =>
      if String.eqb v "" then specPieces cs' else v :: specPieces cs'
    | Dynamic => specPieces cs'
    end
  end.

Definition specTextContent (element : JSXElement) : string :=
  Js.trim (Js.join " " (specPieces (Js.nullish (children element) []))).

Definition isLiteralChild (child : JSXChild) : bool :=
  match childKind child with
  | Dynamic => false
  | _ => true
  end.

(** An attribute whose value is a literal string, directly or inside an
    expression container. *)
Definition isLiteralAttribute (attr : JSXAttribute) : bool :=
  String.eqb (attr_type attr) "JSXAttribute" &&
  match attr_value attr with
  | Some v =>
    String.eqb (val_type v) "StringLiteral"
    || (String.eqb (val_type v) "JSXExpressionContainer"
        && bool_decide (expr_type <$> val_expression v = Some "StringLiteral"))
  | None => false
  end.

Definition isNamed (key : string) (attr : JSXAttribute) : bool :=
  bool_decide (attr_name attr ≫= name = Some key).

(** *** Facets, as section 4.4 words them *)

Inductive Facet :=
| FacetId | FacetName | FacetPath | FacetLine | FacetFile | FacetContent.

Definition facetOrder : list Facet :=
  [FacetId; FacetName; FacetPath; FacetLine; FacetFile; FacetContent].

(** The content snapshot has at least one field set. *)
Definition hasContent (c : ElementContent) : bool :=
  match text c, placeholder c, className c with
  | None, None, None => false
  | _, _, _ => true
  end.

Definition facetEnabled (options : ResolvedOptions) (f : Facet) : bool :=
  match f with
  | FacetId => includeId options
  | FacetName => includeName options
  | FacetPath => includePath options
  | FacetLine => includeLine options
  | FacetFile => includeFile options
  | FacetContent => includeContent options
  end.

(** A facet produces output when it is enabled and, for the content facet,
    when there is a snapshot. *)
Definition facetPresent (options : ResolvedOptions) (data : AttributeData) (f : Facet) : bool :=
  facetEnabled options f &&
  match f with
  | FacetContent => hasContent (content data)
  | _ => true
  end.

Definition facetKey (f : Facet) : string :=
  match f with
  | FacetId => "id"
  | FacetName => "name"
  | FacetPath => "path"
  | FacetLine => "line"
  | FacetFile => "file"
  | FacetContent => "content"
  end.

Definition facetValue (data : AttributeData) (f : Facet) : string :=
  match f with
  | FacetId =>
    filePath data +:+ ":" +:+ Js.number_to_string (data_line data)
      +:+ ":" +:+ Js.number_to_string (data_col data)
  | FacetName => elementName data
  | FacetPath => filePath data
  | FacetLine => Js.number_to_string (data_line data)
  | FacetFile => fileName data
  | FacetContent =>
    Js.encodeURIComponent (Js.json_object (content_entries (content data)))
  end.

Definition facetAttribute (options : ResolvedOptions) (data : AttributeData) (f : Facet) : string :=
  dataAttribute (tagPrefix options) (facetKey f) (facetValue data f).

(** The attribute syntax of section 6, read literally: [<prefix>-<facet>="<value>"]. *)
Definition specAttribute (prefix facet value : string) : string :=
  prefix +:+ "-" +:+ facet +:+ "=" +:+ Js.dquote +:+ value +:+ Js.dquote.

Definition specAttributeBlock (prefix : string) (data : AttributeData) : string :=
  " " +:+ Js.join " "
    (map (fun f => specAttribute prefix (facetKey f) (facetValue data f)) facetOrder).

Definition withoutContent (options : ResolvedOptions) : ResolvedOptions :=
  {| includeId := includeId options;
     includeName := includeName options;
     includePath := includePath options;
     includeLine := includeLine options;
     includeFile := includeFile options;
     includeContent := false;
     tagPrefix := tagPrefix options;
     include := include options;
     exclude := exclude options;
     useRelativePath := useRelativePath options;
     debug := debug options;
     filter3DElements := filter3DElements options |}.

(** *** Enclosing-element context, as section 4.6 words it *)

(** The shape the parser gives a tree: an opening tag occurs only as the
    first sub-node of a full element, and every full element starts with
    its opening tag. *)
Fixpoint babel_shaped (n : node) : bool :=
  match n with
  | JSXElementNode _ (JSXOpeningElementNode _ inner :: rest) =>
    forallb babel_shaped inner && forallb babel_shaped rest
  | JSXElementNode _ _ => false
  | JSXOpeningElementNode _ _ => false
  | OtherNode l => forallb babel_shaped l
  end.

(** A traversal that scopes the enclosing element to its subtree: [ctx] is
    the nearest ancestor full element ([None] is [idle]); it is what an
    opening tag extracts text from, and it reverts when the subtree of a
    full element is left because it is an argument of the recursion. *)
Fixpoint walkScoped
    (options : ResolvedOptions) (filePath fileName : string)
    (ctx : option JSXElement) (n : node) (st : WalkState) : WalkState :=
  match n with
  | JSXElementNode element l =>
    foldl (fun st k => walkScoped options filePath fileName (Some element) k st) st l
  | JSXOpeningElementNode jsxNode l =>
    foldl (fun st k => walkScoped options filePath fileName ctx k st)
      (enterOpening options filePath fileName jsxNode (set_currentElement ctx st)) l
  | OtherNode l =>
    foldl (fun st k => walkScoped options filePath fileName ctx k st) st l
  end.

(** The last full element entered by a traversal of [n], or [ctx] when
    [n] holds none. *)
Fixpoint lastEntered (n : node) (ctx : option JSXElement) : option JSXElement :=
  foldl (fun c k => lastEntered k c)
    (match n with
     | JSXElementNode element _ => Some element
     | _ => ctx
     end) (subnodes n).

(** What a traversal leaves behind apart from its context. *)
Definition outcome (st : WalkState) : MagicString * N * ProcessingStats :=
  (magicString st, changedElementsCount st, stats st).

(** The attribute block [enter] computes for an opening tag named
    [elementName] while [current] is the enclosing-element context. *)
Definition tagAttributes
    (options : ResolvedOptions) (filePath fileName : string)
    (current : option JSXElement) (jsxNode : JSXNode) (elementName : string) : string :=
  buildDataAttributes options
    (Build_AttributeData elementName filePath fileName
       (Js.nullish (line <$> (loc jsxNode ≫= start)) 0)
       (Js.nullish (column <$> (loc jsxNode ≫= start)) 0)
       (buildContentObject (extractTextContent current)
          (extractElementAttributes (attributes jsxNode)))).

(** Shape of the sub-nodes of [n], an opening tag included. *)
Definition shaped_below (n : node) : bool :=
  match n with
  | JSXOpeningElementNode _ inner => forallb babel_shaped inner
  | _ => babel_shaped n
  end.

Definition isOpening (n : node) : bool :=
  match n with
  | JSXOpeningElementNode _ _ => true
  | _ => false
  end.

(** The element has no literal text child. *)
Definition noLiteralText (element : JSXElement) : bool :=
  forallb (fun c => negb (isLiteralChild c)) (Js.nullish (children element) []).

(** No attribute is a literal-string [placeholder] or [className]. *)
Definition noLiteralContentAttribute (attributes : list JSXAttribute) : bool :=
  forallb (fun a =>
    negb (isLiteralAttribute a && (isNamed "placeholder" a || isNamed "className" a)))
    attributes.

(** ** Sample inputs *)

Definition identifier (s : string) (e : option N) : JSXName :=
  {| name_type := "JSXIdentifier"; name_name := Some s;
     object := None; property := None; name_end := e |}.

Definition memberExpression (o p : option Named) (e : option N) : JSXName :=
  {| name_type := "JSXMemberExpression"; name_name := None;
     object := o; property := p; name_end := e |}.

Definition at_position (l c : N) : option Loc :=
  Some {| start := Some {| line := l; column := c |} |}.

(** [onClick={fn}] *)
Definition onClickAttribute : JSXAttribute :=
  {| attr_type := "JSXAttribute";
     attr_name := Some {| name := Some "onClick" |};
     attr_value :=
       Some {| val_type := "JSXExpressionContainer"; val_value := None;
               val_expression := Some {| expr_type := "Identifier"; expr_value := None |} |} |}.

(** [<Button onClick={fn}>Click me</Button>] at line 6, column 8. *)
Definition buttonSource : string := "<Button onClick={fn}>Click me</Button>".

Definition buttonTag : JSXNode :=
  {| jsx_name := identifier "Button" (Some 7);
     loc := at_position 6 8;
     attributes := [onClickAttribute];
     typeParameters := None |}.

Definition buttonElement : JSXElement :=
  {| children :=
       Some [{| child_type := "JSXText"; child_value := Some "Click me";
                child_expression := None |}] |}.

Definition buttonTree : node :=
  OtherNode
    [JSXElementNode buttonElement
       [JSXOpeningElementNode buttonTag [OtherNode []; OtherNode [OtherNode []]];
        OtherNode [OtherNode []];
        OtherNode []]].

(** [<Button onClick={fn}>{label}</Button>] *)
Definition dynamicElement : JSXElement :=
  {| children :=
       Some [{| child_type := "JSXExpressionContainer"; child_value := None;
                child_expression :=
                  Some {| expr_type := "Identifier"; expr_value := None |} |}] |}.

(** [<Fragment>] *)
Definition fragmentTag : JSXNode :=
  {| jsx_name := identifier "Fragment" (Some 9);
     loc := at_position 1 0; attributes := []; typeParameters := None |}.

(** [<Field<T>>]: the name ends at 6, the type-parameter list at 9. *)
Definition genericTag : JSXNode :=
  {| jsx_name := identifier "Field" (Some 6);
     loc := at_position 1 0; attributes := [];
     typeParameters := Some {| tp_end := Some 9 |} |}.

(** [<motion.div>] *)
Definition memberTag : JSXNode :=
  {| jsx_name :=
       memberExpression (Some {| name := Some "motion" |})
                        (Some {| name := Some "div" |}) (Some 11);
     loc := at_position 1 0; attributes := []; typeParameters := None |}.

(** A tag [<A/>] whose node carries no end offsets. *)
Definition bareTag : JSXNode :=
  {| jsx_name := identifier "A" None;
     loc := at_position 1 0; attributes := []; typeParameters := None |}.

Definition buttonData : AttributeData :=
  {| elementName := "Button"; filePath := "src/App.tsx"; fileName := "App.tsx";
     data_line := 6; data_col := 8;
     content := {| text := Some "Click me"; placeholder := None; className := None |} |}.

(** The state [transform] starts a traversal in. *)
Definition initialWalkState (code : string) (s : ProcessingStats) : WalkState :=
  {| magicString := MagicString_new code;
     changedElementsCount := 0;
     currentElement := None;
     stats := s |}.

(** A host whose parser knows [buttonSource] and rejects everything else,
    and whose files all live in [src/]. *)
Definition sampleHost : Host :=
  {| parse := fun code =>
       if String.eqb code buttonSource then Some buttonTree else None;
     path_extname := fun _ => ".tsx";
     path_basename := fun _ => "App.tsx";
     path_relative := fun _ _ => "src/App.tsx";
     cwd := "/work" |}.

(** ** Auxiliary readings used by the further properties *)


(** The opening tags of a tree, in the order the walker enters them. *)
Fixpoint openingTags (n : node) : list JSXNode :=
  match n with
  | JSXOpeningElementNode jsxNode _ => [jsxNode]
  | _ => []
  end ++ flat_map openingTags (subnodes n).

(** Successive calls of the [transform] hook of one plugin instance, each
    file given as its source text and its identifier; the result is the
    instance's [stats] afterwards. *)
Definition transformAll
    (h : Host) (resolvedOptions : ResolvedOptions)
    (files : list (string * string)) (pluginStats : ProcessingStats) : ProcessingStats :=
  foldl (fun s f => (transform h resolvedOptions f.1 f.2 s).2) pluginStats files.

(** The difference between two traversal states, in terms of the opening
    tags entered in between: insertions were only appended, each at the
    resolver's offset for one of the tags and with a text that starts with
    [ data-<prefix>-]; the tag count grew by the number of insertions; the
    skipped counter grew by [skipped]; no tag was both tagged and skipped;
    the original text and the per-file counters did not change. *)
Definition annotates
    (options : ResolvedOptions) (tags : list JSXNode) (st st' : WalkState) : Prop :=
  exists (added : list (N * string)) (skipped : nat),
    original (magicString st') = original (magicString st)
    /\ insertions (magicString st') = insertions (magicString st) ++ added
    /\ changedElementsCount st' = changedElementsCount st + N.of_nat (length added)
    /\ skippedElements (stats st') = skippedElements (stats st) + N.of_nat skipped
    /\ totalFiles (stats st') = totalFiles (stats st)
    /\ processedFiles (stats st') = processedFiles (stats st)
    /\ totalElements (stats st') = totalElements (stats st)
    /\ (length added + skipped <= length tags)%nat
    /\ Forall (fun ins : N * string =>
                 (exists jsxNode, jsxNode ∈ tags /\ ins.1 = getInsertPosition jsxNode)
                 /\ exists rest, ins.2 = " data-" +:+ tagPrefix options +:+ "-" +:+ rest)
              added.

(** [sub] occurs in [s]. *)
Definition substring_of (sub s : string) : Prop :=
  exists pre post, s = pre +:+ sub +:+ post.

(** The first character of [s], if any, is white space. *)
Definition starts_with_space (s : string) : bool :=
  match s with
  | "" => false
  | String c _ => Js.is_white_space c
  end.

(** [<mesh position={[0,0,0]} />] *)
Definition meshTag : JSXNode :=
  {| jsx_name := identifier "mesh" (Some 5);
     loc := at_position 1 0;
     attributes :=
       [{| attr_type := "JSXAttribute";
           attr_name := Some {| name := Some "position" |};
           attr_value :=
             Some {| val_type := "JSXExpressionContainer"; val_value := None;
                     val_expression :=
                       Some {| expr_type := "ArrayExpression"; expr_value := None |} |} |}];
     typeParameters := None |}.

(** [<svg:rect>]: a namespaced name, which is neither an identifier nor a
    member expression. *)
Definition namespacedTag : JSXNode :=
  {| jsx_name :=
       {| name_type := "JSXNamespacedName"; name_name := None;
          object := None; property := None; name_end := Some 9 |};
     loc := at_position 1 0; attributes := []; typeParameters := None |}.

(** [<div className="container">] *)
Definition divTag : JSXNode :=
  {| jsx_name := identifier "div" (Some 4);
     loc := at_position 3 4;
     attributes :=
       [{| attr_type := "JSXAttribute";
           attr_name := Some {| name := Some "className" |};
           attr_value :=
             Some {| val_type := "StringLiteral"; val_value := Some "container";
                     val_expression := None |} |}];
     typeParameters := None |}.

(** A configuration with every facet disabled. *)
Definition silentOptions : ResolvedOptions :=
  resolveOptions
    (Build_GhostmarkOptions (Some false) (Some false) (Some false) (Some false)
       (Some false) (Some false) None None None None None None).

(** Only the content facet enabled. *)
Definition contentOnlyOptions : ResolvedOptions :=
  resolveOptions
    (Build_GhostmarkOptions (Some false) (Some false) (Some false) (Some false)
       (Some false) (Some true) None None None None None None).

(** [<input placeholder="Name" placeholder={hint} className={"field"} disabled />] *)
Definition inputTag : JSXNode :=
  {| jsx_name := identifier "input" (Some 6);
     loc := at_position 3 2;
     attributes :=
       [{| attr_type := "JSXAttribute";
           attr_name := Some {| name := Some "placeholder" |};
           attr_value :=
             Some {| val_type := "StringLiteral"; val_value := Some "Name";
                     val_expression := None |} |};
        {| attr_type := "JSXAttribute";
           attr_name := Some {| name := Some "placeholder" |};
           attr_value :=
             Some {| val_type := "JSXExpressionContainer"; val_value := None;
                     val_expression :=
                       Some {| expr_type := "Identifier"; expr_value := None |} |} |};
        {| attr_type := "JSXAttribute";
           attr_name := Some {| name := Some "className" |};
           attr_value :=
             Some {| val_type := "JSXExpressionContainer"; val_value := None;
                     val_expression :=
                       Some {| expr_type := "StringLiteral";
                               expr_value := Some "field" |} |} |};
        {| attr_type := "JSXAttribute";
           attr_name := Some {| name := Some "disabled" |};
           attr_value := None |}];
     typeParameters := None |}.

(** * Properties *)

(** ** String and list facts *)

Lemma truthy_spec s : Js.truthy s = true <-> s <> "".
Proof.
  unfold Js.truthy. destruct (String.eqb_spec s ""); simpl; split; congruence.
Qed.

Lemma append_cons c s t : String c s +:+ t = String c (s +:+ t).
Proof. reflexivity. Qed.

Lemma append_nil_l s : "" +:+ s = s.
Proof. reflexivity. Qed.

Lemma append_nil_r s : s +:+ "" = s.
Proof. induction s as [|c s IH]; [done | by rewrite append_cons, IH]. Qed.

Lemma append_assoc s1 s2 s3 : (s1 +:+ s2) +:+ s3 = s1 +:+ s2 +:+ s3.
Proof. induction s1 as [|c s1 IH]; [done | by rewrite !append_cons, IH]. Qed.

Lemma append_eq_nil s1 s2 : s1 +:+ s2 = "" -> s1 = "" /\ s2 = "".
Proof. destruct s1; [done | rewrite append_cons; discriminate]. Qed.

Lemma includes_app_r s1 s2 sub :
  Js.includes s2 sub = true -> Js.includes (s1 +:+ s2) sub = true.
Proof.
  intros H. induction s1 as [|c s1 IH]; [done |].
  rewrite append_cons. cbn [Js.includes]. rewrite IH. apply orb_true_r.
Qed.

Lemma includes_dot o p : Js.includes (o +:+ "." +:+ p) "." = true.
Proof. apply includes_app_r. rewrite append_cons, append_nil_l. by destruct p. Qed.

(** ** Classifier *)

Lemma shouldSkipElement_null options : shouldSkipElement None options = true.
Proof. reflexivity. Qed.

Lemma THREE_D_ELEMENTS_undotted s : is3DElement s = true -> Js.includes s "." = false.
Proof.
  unfold is3DElement, THREE_D_ELEMENTS. intros H%bool_decide_eq_true.
  apply elem_of_list_to_set in H.
  repeat (apply elem_of_cons in H as [-> | H]; [reflexivity |]).
  by apply elem_of_nil in H.
Qed.

(** C10. A tag named by a member expression gets the name
    [<object>.<property>], a missing part being the empty string; the name
    is never [null] and never empty, so the tag is not skipped for lack of
    a name: the only such tag that is skipped is [React.Fragment]. *)
Theorem member_expression_name (jsxNode : JSXNode) :
  name_type (jsx_name jsxNode) = "JSXMemberExpression" ->
  extractElementName jsxNode =
    Some (Js.nullish (object (jsx_name jsxNode) ≫= name) "" +:+ "." +:+
          Js.nullish (property (jsx_name jsxNode) ≫= name) "")
  /\ extractElementName jsxNode <> None
  /\ Js.truthy_opt (extractElementName jsxNode) = true
  /\ (object (jsx_name jsxNode) ≫= name = None ->
      property (jsx_name jsxNode) ≫= name = None ->
      extractElementName jsxNode = Some ".")
  /\ forall options,
       shouldSkipElement (extractElementName jsxNode) options = true ->
       extractElementName jsxNode = Some "React.Fragment".
Proof.
  intros Hty. unfold extractElementName. rewrite Hty. cbn [String.eqb Ascii.eqb Bool.eqb].
  simpl.
  set (o := Js.nullish (object (jsx_name jsxNode) ≫= name) "").
  set (p := Js.nullish (property (jsx_name jsxNode) ≫= name) "").
  assert (Hdot : Js.includes (o +:+ "." +:+ p) "." = true) by apply includes_dot.
  assert (Hne : o +:+ "." +:+ p <> "").
  { intros [_ H]%append_eq_nil. discriminate. }
  repeat split; try done.
  - by apply truthy_spec.
  - subst o p. by intros -> ->.
  - intros options. unfold shouldSkipElement.
    apply truthy_spec in Hne. rewrite Hne. simpl.
    destruct (String.eqb_spec (o +:+ "." +:+ p) "Fragment") as [E|_].
    { rewrite E in Hdot. discriminate. }
    destruct (String.eqb_spec (o +:+ "." +:+ p) "React.Fragment") as [E|_].
    { by rewrite E. }
    simpl. destruct (is3DElement (o +:+ "." +:+ p)) eqn:E3.
    + apply THREE_D_ELEMENTS_undotted in E3. congruence.
    + by rewrite andb_false_r.
Qed.

Lemma member_expression_name_witness :
  extractElementName memberTag = Some "motion.div"
  /\ shouldSkipElement (extractElementName memberTag) defaultOptions = false.
Proof.
  destruct (member_expression_name memberTag eq_refl) as (Hn & _ & _ & _ & Hskip).
  split; [exact Hn |].
  destruct (shouldSkipElement (extractElementName memberTag) defaultOptions) eqn:E;
    [| reflexivity].
  specialize (Hskip defaultOptions E). rewrite Hn in Hskip. discriminate Hskip.
Defined.

(** ** Source editor *)

Lemma appendLeft_inv i a j b ms :
  appendLeft i a ms = appendLeft j b ms -> i = j /\ a = b.
Proof.
  unfold appendLeft. intros H. injection H as H.
  apply app_inv_head in H. by injection H.
Qed.

Lemma appendLeft_neq i a ms : appendLeft i a ms <> ms.
Proof.
  destruct ms as [o ins]. unfold appendLeft. simpl. intros H. injection H as H.
  apply (f_equal length) in H. rewrite length_app in H. simpl in H. lia.
Qed.

Lemma splice_after a i s : i <> 0 -> splice [(0, a)] i s = s.
Proof.
  revert i. induction s as [|c s IH]; intros i Hi; simpl;
    destruct (N.eqb_spec i 0); try done.
  rewrite !append_nil_l. rewrite IH; [done | lia].
Qed.

Lemma toString_insert_at_start a code :
  toString (appendLeft 0 a (MagicString_new code)) = Some (a +:+ code).
Proof.
  unfold toString. simpl.
  replace (0 <=? N.of_nat (String.length code)) with true
    by (symmetry; apply N.leb_le; lia).
  simpl. f_equal.
  destruct code as [|c code]; simpl; rewrite append_nil_r; [done |].
  rewrite splice_after; [done | lia].
Qed.

(** ** One opening tag *)

Section Opening.

Variable options : ResolvedOptions.
Variables path file : string.

Lemma enterOpening_skipped jsxNode st :
  shouldSkipElement (extractElementName jsxNode) options = true ->
  enterOpening options path file jsxNode st =
    if Js.truthy_opt (extractElementName jsxNode)
    then incr_skippedElements st else st.
Proof. unfold enterOpening. by intros ->. Qed.

Lemma enterOpening_processed jsxNode st elementName :
  extractElementName jsxNode = Some elementName ->
  shouldSkipElement (Some elementName) options = false ->
  enterOpening options path file jsxNode st =
    let attributes :=
      tagAttributes options path file (currentElement st) jsxNode elementName in
    if Js.truthy attributes
    then tag_element (getInsertPosition jsxNode) attributes st
    else st.
Proof. unfold enterOpening. by intros -> ->. Qed.

(** Either the editor is untouched, or exactly one insertion is
    registered, at the offset the resolver gives. *)
Lemma enterOpening_editor jsxNode st :
  magicString (enterOpening options path file jsxNode st) = magicString st
  \/ exists attributes,
       magicString (enterOpening options path file jsxNode st) =
         appendLeft (getInsertPosition jsxNode) attributes (magicString st).
Proof.
  destruct (shouldSkipElement (extractElementName jsxNode) options) eqn:Hskip.
  - left. rewrite enterOpening_skipped by done.
    by destruct (Js.truthy_opt _).
  - destruct (extractElementName jsxNode) as [elementName|] eqn:Hname; [| done].
    rewrite (enterOpening_processed _ _ _ Hname Hskip). simpl.
    destruct (Js.truthy _); [right; by eexists | by left].
Qed.

Lemma enterOpening_currentElement jsxNode st :
  currentElement (enterOpening options path file jsxNode st) = currentElement st.
Proof.
  unfold enterOpening.
  repeat (match goal with |- context [match ?x with _ => _ end] => destruct x end);
    reflexivity.
Qed.

End Opening.

(** ** Offset resolver *)

Lemma getInsertPosition_typeParameters jsxNode K :
  typeParameters jsxNode ≫= tp_end = Some K -> getInsertPosition jsxNode = K.
Proof. unfold getInsertPosition. by intros ->. Qed.

Lemma getInsertPosition_name jsxNode :
  typeParameters jsxNode ≫= tp_end = None ->
  getInsertPosition jsxNode = Js.nullish (name_end (jsx_name jsxNode)) 0.
Proof. unfold getInsertPosition. by intros ->. Qed.

(** C1. When an opening tag is processed and an insertion is registered
    for it, the insertion offset is the one the resolver computes: the end
    [K] of the type-parameter list when the tag carries one, otherwise the
    end [N] of the name token; with both present and [K > N] it is [K] and
    not [N]. *)
Theorem insertion_offset_correct
    (options : ResolvedOptions) (path file : string)
    (jsxNode : JSXNode) (st : WalkState) (offset : N) (attributes : string) :
  magicString (enterOpening options path file jsxNode st) =
    appendLeft offset attributes (magicString st) ->
  offset = getInsertPosition jsxNode
  /\ (forall K, typeParameters jsxNode = Some {| tp_end := Some K |} -> offset = K)
  /\ (forall N, typeParameters jsxNode = None ->
                name_end (jsx_name jsxNode) = Some N -> offset = N)
  /\ (forall K N, typeParameters jsxNode = Some {| tp_end := Some K |} ->
                  name_end (jsx_name jsxNode) = Some N ->
                  N < K -> offset = K /\ offset <> N).
Proof.
  intros H.
  assert (Hoff : offset = getInsertPosition jsxNode).
  { destruct (enterOpening_editor options path file jsxNode st) as [E | [a E]];
      rewrite E in H.
    - symmetry in H. by apply appendLeft_neq in H.
    - by apply appendLeft_inv in H as [-> _]. }
  subst offset. split; [done |]. split; [| split].
  - intros K HK. apply getInsertPosition_typeParameters. by rewrite HK.
  - intros N HN Hend. rewrite getInsertPosition_name by (by rewrite HN).
    by rewrite Hend.
  - intros K N HK _ Hlt.
    rewrite (getInsertPosition_typeParameters jsxNode K) by (by rewrite HK).
    split; [done | lia].
Qed.

Lemma insertion_offset_correct_witness :
  getInsertPosition genericTag = 9 /\ getInsertPosition genericTag <> 6.
Proof.
  pose (st := initialWalkState "<Field<T>></Field>" initialStats).
  destruct (insertion_offset_correct defaultOptions "src/App.tsx" "App.tsx"
              genericTag st 9
              (tagAttributes defaultOptions "src/App.tsx" "App.tsx" None genericTag "Field")
              eq_refl) as (Hoff & _ & _ & Hboth).
  destruct (Hboth 9 6 eq_refl eq_refl eq_refl) as [_ Hne].
  rewrite <- Hoff. split; [reflexivity | exact Hne].
Defined.

(** C9, as amended. A tag with neither a type-parameter end offset nor a
    name end offset resolves to offset 0, and the caller treats 0 like any
    other offset: when the tag is processed and its attribute block is not
    empty, the block is registered as an insertion at offset 0, which puts
    it at the very start of the text. *)
Theorem missing_offsets_insert_at_start (jsxNode : JSXNode) :
  typeParameters jsxNode ≫= tp_end = None ->
  name_end (jsx_name jsxNode) = None ->
  getInsertPosition jsxNode = 0
  /\ forall options path file st elementName,
       extractElementName jsxNode = Some elementName ->
       shouldSkipElement (Some elementName) options = false ->
       let attributes :=
         tagAttributes options path file (currentElement st) jsxNode elementName in
       attributes <> "" ->
       magicString (enterOpening options path file jsxNode st) =
         appendLeft 0 attributes (magicString st)
       /\ forall code,
            toString (appendLeft 0 attributes (MagicString_new code)) =
              Some (attributes +:+ code).
Proof.
  intros Htp Hend.
  assert (H0 : getInsertPosition jsxNode = 0).
  { rewrite getInsertPosition_name by done. by rewrite Hend. }
  split; [done |].
  intros options path file st elementName Hname Hskip attributes Hne. split.
  - rewrite (enterOpening_processed _ _ _ _ _ _ Hname Hskip). simpl.
    fold attributes. apply truthy_spec in Hne. by rewrite Hne, H0.
  - intros code. apply toString_insert_at_start.
Qed.

Lemma missing_offsets_insert_at_start_witness :
  getInsertPosition bareTag = 0
  /\ toString (magicString
       (enterOpening defaultOptions "src/App.tsx" "App.tsx" bareTag
          (initialWalkState "<A/>" initialStats)))
     = Some (tagAttributes defaultOptions "src/App.tsx" "App.tsx" None bareTag "A"
             +:+ "<A/>").
Proof.
  destruct (missing_offsets_insert_at_start bareTag eq_refl eq_refl) as [H0 H].
  split; [exact H0 |].
  destruct (H defaultOptions "src/App.tsx" "App.tsx"
              (initialWalkState "<A/>" initialStats) "A" eq_refl eq_refl)
    as [Hms Hstr]; [discriminate |].
  rewrite Hms. apply Hstr.
Defined.

(** C9, as stated, fails: for the tag [<A/>] without end offsets the
    default configuration splices the attribute block in front of the
    source text. *)
Lemma missing_offsets_not_a_noop :
  typeParameters bareTag ≫= tp_end = None
  /\ name_end (jsx_name bareTag) = None
  /\ insertions (magicString
       (enterOpening defaultOptions "src/App.tsx" "App.tsx" bareTag
          (initialWalkState "<A/>" initialStats)))
     = [(0, tagAttributes defaultOptions "src/App.tsx" "App.tsx" None bareTag "A")]
  /\ toString (magicString
       (enterOpening defaultOptions "src/App.tsx" "App.tsx" bareTag
          (initialWalkState "<A/>" initialStats)))
     = Some (" data-gm-id=" +:+ Js.dquote +:+ "src/App.tsx:1:0" +:+ Js.dquote +:+
             " data-gm-name=" +:+ Js.dquote +:+ "A" +:+ Js.dquote +:+
             " data-gm-path=" +:+ Js.dquote +:+ "src/App.tsx" +:+ Js.dquote +:+
             " data-gm-line=" +:+ Js.dquote +:+ "1" +:+ Js.dquote +:+
             " data-gm-file=" +:+ Js.dquote +:+ "App.tsx" +:+ Js.dquote +:+
             "<A/>")
  /\ toString (magicString
       (enterOpening defaultOptions "src/App.tsx" "App.tsx" bareTag
          (initialWalkState "<A/>" initialStats)))
     <> toString (MagicString_new "<A/>").
Proof.
  split; [reflexivity |]. split; [reflexivity |]. split; [reflexivity |].
  split; [vm_compute; reflexivity | vm_compute; discriminate].
Qed.

(** ** Fragments *)

(** C3, as amended. For every configuration, an opening tag named exactly
    [Fragment] or [React.Fragment] produces no insertion and is not counted
    as tagged; like every skipped tag whose name was resolved, it adds one
    to the skipped-element counter. *)
Theorem fragment_skipped_and_counted
    (options : ResolvedOptions) (path file : string)
    (jsxNode : JSXNode) (st : WalkState) :
  extractElementName jsxNode = Some "Fragment"
  \/ extractElementName jsxNode = Some "React.Fragment" ->
  let st' := enterOpening options path file jsxNode st in
  magicString st' = magicString st
  /\ changedElementsCount st' = changedElementsCount st
  /\ skippedElements (stats st') = skippedElements (stats st) + 1
  /\ totalFiles (stats st') = totalFiles (stats st)
  /\ processedFiles (stats st') = processedFiles (stats st)
  /\ totalElements (stats st') = totalElements (stats st).
Proof.
  intros Hname st'. subst st'.
  rewrite enterOpening_skipped; destruct Hname as [-> | ->]; done.
Qed.

Lemma fragment_skipped_and_counted_witness :
  insertions (magicString
    (enterOpening defaultOptions "src/App.tsx" "App.tsx" fragmentTag
       (initialWalkState "<Fragment></Fragment>" initialStats))) = []
  /\ skippedElements (stats
    (enterOpening defaultOptions "src/App.tsx" "App.tsx" fragmentTag
       (initialWalkState "<Fragment></Fragment>" initialStats))) = 1.
Proof.
  destruct (fragment_skipped_and_counted defaultOptions "src/App.tsx" "App.tsx"
              fragmentTag (initialWalkState "<Fragment></Fragment>" initialStats)
              (or_introl eq_refl)) as (Hms & _ & Hsk & _).
  rewrite Hms, Hsk. split; reflexivity.
Defined.

(** C3, as stated, fails: entering [<Fragment>] changes the
    skipped-element counter. *)
Lemma fragment_changes_skipped_counter :
  extractElementName fragmentTag = Some "Fragment"
  /\ skippedElements
       (stats (enterOpening defaultOptions "src/App.tsx" "App.tsx" fragmentTag
                 (initialWalkState "<Fragment></Fragment>" initialStats)))
     <> skippedElements (stats (initialWalkState "<Fragment></Fragment>" initialStats)).
Proof. split; [reflexivity | vm_compute; discriminate]. Qed.

(** ** Per-file results *)

(** C4, as amended. For every file that is selected for processing and
    whose source text fails to parse, [transform] performs no insertion and
    returns [null]; the files-seen counter is incremented, and so is the
    files-processed counter (in the [catch] branch); the element counters
    are unchanged. *)
Theorem parse_failure_result
    (h : Host) (options : ResolvedOptions) (code id : string) (s : ProcessingStats) :
  shouldProcessFile h id options = true ->
  parse h code = None ->
  transform h options code id s =
    (None,
     {| totalFiles := totalFiles s + 1;
        processedFiles := processedFiles s + 1;
        totalElements := totalElements s;
        skippedElements := skippedElements s |}).
Proof. unfold transform. by intros -> ->. Qed.

Lemma parse_failure_result_witness :
  transform sampleHost defaultOptions "<div" "/work/src/App.tsx" initialStats =
    (None,
     {| totalFiles := 1; processedFiles := 1; totalElements := 0; skippedElements := 0 |}).
Proof.
  exact (parse_failure_result sampleHost defaultOptions "<div" "/work/src/App.tsx"
           initialStats eq_refl eq_refl).
Defined.

(** C4, as stated, fails: after a parse failure the files-processed
    counter has been incremented. *)
Lemma parse_failure_counts_as_processed :
  parse sampleHost "<div" = None
  /\ processedFiles
       (transform sampleHost defaultOptions "<div" "/work/src/App.tsx" initialStats).2
     <> processedFiles initialStats.
Proof. split; [reflexivity | vm_compute; discriminate]. Qed.

(** ** Content extractor *)

Lemma childText_kind child :
  childText child =
    match childKind child with
    | LiteralText v => Js.trim v
    | LiteralString v => v
    | Dynamic => ""
    end.
Proof.
  unfold childText, childKind.
  destruct (String.eqb (child_type child) "JSXText").
  { by destruct (child_value child). }
  destruct (String.eqb (child_type child) "JSXExpressionContainer"); [| done].
  simpl. destruct (child_expression child) as [e|]; simpl; [| done].
  destruct (String.eqb_spec (expr_type e) "StringLiteral") as [E|E].
  - rewrite bool_decide_eq_true_2 by (by rewrite E). done.
  - rewrite bool_decide_eq_false_2 by congruence. done.
Qed.

Lemma pieces_spec cs : List.filter Js.truthy (map childText cs) = specPieces cs.
Proof.
  induction cs as [|c cs IH]; [done |].
  cbn [map List.filter specPieces]. rewrite childText_kind, IH. unfold Js.truthy.
  destruct (childKind c) as [v|v|]; [| | done].
  - by destruct (String.eqb (Js.trim v) "").
  - by destruct (String.eqb v "").
Qed.

(** C8. The text extracted from an enclosing element is: its children in
    document order, a literal-text child giving its trimmed value, a string
    literal inside an expression container giving its value, any other
    child giving nothing; the non-empty pieces joined by one space; the
    result trimmed. *)
Theorem extractTextContent_spec (element : JSXElement) :
  extractTextContent (Some element) = specTextContent element.
Proof.
  unfold extractTextContent, specTextContent. simpl.
  destruct (children element) as [cs|]; simpl; [| done].
  by rewrite pieces_spec.
Qed.

Lemma extractTextContent_no_literal element :
  noLiteralText element = true -> extractTextContent (Some element) = "".
Proof.
  unfold noLiteralText, extractTextContent. simpl.
  destruct (children element) as [cs|]; simpl; [| done].
  intros H. rewrite pieces_spec.
  replace (specPieces cs) with (@nil string); [done |].
  induction cs as [|c cs IH]; [done |].
  cbn [forallb] in H. apply andb_true_iff in H as [Hc Hcs].
  cbn [specPieces]. unfold isLiteralChild in Hc.
  destruct (childKind c); try discriminate. by apply IH.
Qed.

Lemma extractElementAttributes_absent key attributes :
  forallb (fun a => negb (isLiteralAttribute a && isNamed key a)) attributes = true ->
  extractElementAttributes attributes !! key = None.
Proof.
  unfold extractElementAttributes.
  generalize (∅ : gmap string string) (lookup_empty (M := gmap string) (A := string) key).
  induction attributes as [|a l IH]; intros acc Hacc H; [done |].
  cbn [forallb] in H. apply andb_true_iff in H as [Ha Hl].
  cbn [foldl]. apply IH; [| done].
  unfold isLiteralAttribute, isNamed in Ha.
  destruct (String.eqb (attr_type a) "JSXAttribute"); simpl in *; [| done].
  destruct (attr_name a ≫= name) as [attrName|] eqn:Hn; [| done].
  destruct (Js.truthy attrName); simpl; [| done].
  destruct (attr_value a) as [v|]; [| done].
  assert (Hins : forall x : string,
             match String.eqb (val_type v) "StringLiteral"
                   || String.eqb (val_type v) "JSXExpressionContainer"
                      && bool_decide (expr_type <$> val_expression v = Some "StringLiteral")
             with true => (<[attrName := x]> acc : gmap string string) !! key = None
             | false => True end).
  { intros x.
    destruct (String.eqb (val_type v) "StringLiteral"
              || String.eqb (val_type v) "JSXExpressionContainer"
                 && bool_decide (expr_type <$> val_expression v = Some "StringLiteral"));
      [| done].
    simpl in Ha. apply negb_true_iff, bool_decide_eq_false in Ha.
    rewrite lookup_insert_ne; [done | congruence]. }
  destruct (String.eqb (val_type v) "StringLiteral"); simpl in *; [apply Hins |].
  destruct (String.eqb (val_type v) "JSXExpressionContainer"
            && bool_decide (expr_type <$> val_expression v = Some "StringLiteral"));
    [apply Hins | done].
Qed.

(** ** Attribute serializer *)

Lemma hasContent_entries c :
  (0 <? N.of_nat (length (content_entries c))) = hasContent c.
Proof.
  unfold content_entries, hasContent.
  by destruct (text c), (placeholder c), (className c).
Qed.

Ltac case_facets options data :=
  unfold dataAttributeList, facetOrder, facetPresent, facetEnabled;
  rewrite ?hasContent_entries;
  destruct (includeId options), (includeName options), (includePath options),
    (includeLine options), (includeFile options), (includeContent options),
    (hasContent (content data)).

Lemma dataAttributeList_facets options data :
  dataAttributeList options data =
    map (facetAttribute options data)
      (List.filter (facetPresent options data) facetOrder).
Proof. case_facets options data; reflexivity. Qed.

(** C6. Whatever the configuration, the attributes in the serialized
    string are those of the facets that produce output, in the fixed order
    identifier, name, path, line, file, content: a disabled facet is left
    out and the others keep their relative order. When no facet produces
    output the result is the empty string. *)
Theorem facet_order_fixed (options : ResolvedOptions) (data : AttributeData) :
  dataAttributeList options data =
    map (facetAttribute options data)
      (List.filter (facetPresent options data) facetOrder)
  /\ buildDataAttributes options data =
       match List.filter (facetPresent options data) facetOrder with
       | [] => ""
       | present => " " +:+ Js.join " " (map (facetAttribute options data) present)
       end.
Proof.
  split; [apply dataAttributeList_facets |].
  unfold buildDataAttributes. rewrite dataAttributeList_facets.
  unfold facetOrder, facetPresent, facetEnabled.
  destruct (includeId options), (includeName options), (includePath options),
    (includeLine options), (includeFile options), (includeContent options),
    (hasContent (content data)); reflexivity.
Qed.

(** C5, as amended. The emitted block is exactly the enabled attributes
    [data-<p>-id="<path>:<line>:<col>"], [data-<p>-name="<name>"],
    [data-<p>-path="<path>"], [data-<p>-line="<line>"],
    [data-<p>-file="<basename>"] and, when there is a content snapshot,
    [data-<p>-content="<percent-encoded JSON>"], each preceded by exactly
    one space and nothing after the last one. *)
Theorem attribute_block_exact (options : ResolvedOptions) (data : AttributeData) :
  buildDataAttributes options data =
    (if includeId options then
       " data-" +:+ tagPrefix options +:+ "-id=" +:+ Js.dquote +:+
       filePath data +:+ ":" +:+ Js.number_to_string (data_line data) +:+ ":" +:+
       Js.number_to_string (data_col data) +:+ Js.dquote
     else "") +:+
    (if includeName options then
       " data-" +:+ tagPrefix options +:+ "-name=" +:+ Js.dquote +:+
       elementName data +:+ Js.dquote
     else "") +:+
    (if includePath options then
       " data-" +:+ tagPrefix options +:+ "-path=" +:+ Js.dquote +:+
       filePath data +:+ Js.dquote
     else "") +:+
    (if includeLine options then
       " data-" +:+ tagPrefix options +:+ "-line=" +:+ Js.dquote +:+
       Js.number_to_string (data_line data) +:+ Js.dquote
     else "") +:+
    (if includeFile options then
       " data-" +:+ tagPrefix options +:+ "-file=" +:+ Js.dquote +:+
       fileName data +:+ Js.dquote
     else "") +:+
    (if includeContent options && hasContent (content data) then
       " data-" +:+ tagPrefix options +:+ "-content=" +:+ Js.dquote +:+
       Js.encodeURIComponent (Js.json_object (content_entries (content data))) +:+
       Js.dquote
     else "").
Proof.
  unfold buildDataAttributes. rewrite dataAttributeList_facets.
  unfold facetOrder, facetPresent, facetEnabled.
  destruct (includeId options), (includeName options), (includePath options),
    (includeLine options), (includeFile options), (includeContent options),
    (hasContent (content data));
    cbn [List.filter map length N.of_nat andb N.ltb N.compare];
    unfold facetAttribute, dataAttribute, facetKey, facetValue, Js.join;
    cbn [String.concat];
    repeat rewrite ?append_assoc, ?append_nil_r; reflexivity.
Qed.

(** C5, as stated, fails: with the prefix [gm] the block does not consist
    of attributes of the form [gm-<facet>="<value>"]. *)
Lemma attribute_block_not_prefix_only :
  tagPrefix defaultOptions = "gm"
  /\ buildDataAttributes defaultOptions buttonData
     <> specAttributeBlock (tagPrefix defaultOptions) buttonData.
Proof. split; [reflexivity | vm_compute; discriminate]. Qed.

Lemma forallb_weaken {A} (f g : A -> bool) l :
  (forall a, f a = true -> g a = true) -> forallb f l = true -> forallb g l = true.
Proof.
  intros Hfg. induction l as [|a l IH]; [done |]. cbn [forallb].
  intros [Ha Hl]%andb_true_iff. by rewrite (Hfg a Ha), IH.
Qed.

Lemma dataAttributeList_content options data :
  dataAttributeList options data =
    dataAttributeList (withoutContent options) data ++
    (if includeContent options && hasContent (content data)
     then [facetAttribute options data FacetContent]
     else []).
Proof.
  rewrite !dataAttributeList_facets.
  unfold facetOrder, facetPresent, facetEnabled, withoutContent. simpl.
  destruct (includeId options), (includeName options), (includePath options),
    (includeLine options), (includeFile options), (includeContent options),
    (hasContent (content data)); reflexivity.
Qed.

(** C7. An element with no literal text child whose tag has no
    literal-string [placeholder] or [className] attribute has an empty
    content snapshot, and the serializer emits for it exactly what it emits
    with the content facet disabled, even when [includeContent] is true. In
    general the content attribute is emitted, last, only when the facet is
    enabled and the snapshot has at least one field set. *)
Theorem content_attribute_presence
    (options : ResolvedOptions) (element : JSXElement) (jsxNode : JSXNode)
    (tag path file : string) (l c : N) :
  noLiteralText element = true ->
  noLiteralContentAttribute (attributes jsxNode) = true ->
  let snapshot :=
    buildContentObject (extractTextContent (Some element))
      (extractElementAttributes (attributes jsxNode)) in
  let data := Build_AttributeData tag path file l c snapshot in
  hasContent snapshot = false
  /\ dataAttributeList options data = dataAttributeList (withoutContent options) data
  /\ buildDataAttributes options data = buildDataAttributes (withoutContent options) data
  /\ forall data' : AttributeData,
       dataAttributeList options data' =
         dataAttributeList (withoutContent options) data' ++
         (if includeContent options && hasContent (content data')
          then [facetAttribute options data' FacetContent]
          else []).
Proof.
  intros Htext Hattrs snapshot data.
  assert (Hp : extractElementAttributes (attributes jsxNode) !! "placeholder" = None).
  { apply extractElementAttributes_absent.
    eapply forallb_weaken; [| exact Hattrs]. intros a. cbv beta.
    destruct (isLiteralAttribute a), (isNamed "placeholder" a); simpl; auto. }
  assert (Hc : extractElementAttributes (attributes jsxNode) !! "className" = None).
  { apply extractElementAttributes_absent.
    eapply forallb_weaken; [| exact Hattrs]. intros a. cbv beta.
    destruct (isLiteralAttribute a), (isNamed "className" a),
      (isNamed "placeholder" a); simpl; auto. }
  assert (Hno : hasContent snapshot = false).
  { subst snapshot. unfold buildContentObject, hasContent. simpl.
    rewrite (extractTextContent_no_literal _ Htext), Hp, Hc. reflexivity. }
  assert (Hlist : dataAttributeList options data =
                  dataAttributeList (withoutContent options) data).
  { rewrite dataAttributeList_content. change (content data) with snapshot.
    rewrite Hno, andb_false_r. apply app_nil_r. }
  split; [exact Hno |]. split; [exact Hlist |]. split.
  - unfold buildDataAttributes. by rewrite Hlist.
  - intros data'. apply dataAttributeList_content.
Qed.

Lemma content_attribute_presence_witness :
  includeContent defaultOptions = true
  /\ buildDataAttributes defaultOptions
       (Build_AttributeData "Button" "src/App.tsx" "App.tsx" 6 8
          (buildContentObject (extractTextContent (Some dynamicElement))
             (extractElementAttributes (attributes buttonTag))))
     = buildDataAttributes (withoutContent defaultOptions)
         (Build_AttributeData "Button" "src/App.tsx" "App.tsx" 6 8
            (buildContentObject (extractTextContent (Some dynamicElement))
               (extractElementAttributes (attributes buttonTag)))).
Proof.
  split; [reflexivity |].
  exact (proj1 (proj2 (proj2
    (content_attribute_presence defaultOptions dynamicElement buttonTag
       "Button" "src/App.tsx" "App.tsx" 6 8 eq_refl eq_refl)))).
Defined.

(** ** Traversal *)

Lemma node_nested_ind (P : node -> Prop) :
  (forall element l, Forall P l -> P (JSXElementNode element l)) ->
  (forall jsxNode l, Forall P l -> P (JSXOpeningElementNode jsxNode l)) ->
  (forall l, Forall P l -> P (OtherNode l)) ->
  forall n, P n.
Proof.
  intros HE HO HX. fix IH 1.
  intros [element l | jsxNode l | l]; [apply HE | apply HO | apply HX];
    (induction l as [|k l IHl]; constructor; [apply IH | apply IHl]).
Qed.

Lemma outcome_inj st1 st2 :
  outcome st1 = outcome st2 -> currentElement st1 = currentElement st2 -> st1 = st2.
Proof.
  destruct st1, st2. unfold outcome. simpl. intros H ->. by injection H as -> -> ->.
Qed.

Lemma babel_shaped_below k :
  babel_shaped k = true -> shaped_below k = true /\ isOpening k = false.
Proof. by destruct k. Qed.

Section Walk.

Variable options : ResolvedOptions.
Variables path file : string.

Let run := walk options path file.
Let runScoped := walkScoped options path file.

Lemma walk_unfold n st :
  run n st = foldl (fun st k => run k st) (enter options path file n st) (subnodes n).
Proof. by destruct n. Qed.

Lemma walkScoped_unfold ctx n st :
  runScoped ctx n st =
    match n with
    | JSXElementNode element l =>
      foldl (fun st k => runScoped (Some element) k st) st l
    | JSXOpeningElementNode jsxNode l =>
      foldl (fun st k => runScoped ctx k st)
        (enterOpening options path file jsxNode (set_currentElement ctx st)) l
    | OtherNode l => foldl (fun st k => runScoped ctx k st) st l
    end.
Proof. by destruct n. Qed.

(** What it means for the two traversals to agree below [n]. *)
Let agree (n : node) : Prop :=
  shaped_below n = true ->
  forall ctx st1 st2,
    outcome st1 = outcome st2 ->
    (isOpening n = true -> currentElement st1 = ctx) ->
    outcome (run n st1) = outcome (runScoped ctx n st2).

Lemma agree_subnodes l :
  Forall agree l ->
  forallb babel_shaped l = true ->
  forall ctx st1 st2,
    outcome st1 = outcome st2 ->
    outcome (foldl (fun st k => run k st) st1 l) =
      outcome (foldl (fun st k => runScoped ctx k st) st2 l).
Proof.
  induction 1 as [|k l Hk _ IH]; intros Hl ctx st1 st2 Hst; [done |].
  cbn [forallb] in Hl. apply andb_true_iff in Hl as [Hsk Hsl].
  apply babel_shaped_below in Hsk as [Hbelow Hopen].
  cbn [foldl]. apply IH; [done |].
  apply Hk; [done | done | by rewrite Hopen].
Qed.

Lemma walk_agrees n : agree n.
Proof.
  induction n as [element l IH | jsxNode l IH | l IH] using node_nested_ind;
    intros Hshape ctx st1 st2 Hst Hctx;
    rewrite walk_unfold, walkScoped_unfold; cbn [subnodes enter].
  - destruct l as [|[| jsxNode inner |] rest]; try discriminate.
    cbn [shaped_below babel_shaped] in Hshape.
    apply andb_true_iff in Hshape as [Hinner Hrest].
    apply Forall_cons in IH as [Hopening IHrest].
    cbn [foldl]. apply (agree_subnodes rest IHrest Hrest).
    apply Hopening; done.
  - cbn [shaped_below] in Hshape.
    apply (agree_subnodes l IH Hshape).
    replace (set_currentElement ctx st2) with st1; [done |].
    apply outcome_inj; [done | by apply Hctx].
  - cbn [shaped_below babel_shaped] in Hshape.
    by apply (agree_subnodes l IH Hshape).
Qed.

Lemma enter_currentElement n st :
  currentElement (enter options path file n st) =
    match n with
    | JSXElementNode element _ => Some element
    | _ => currentElement st
    end.
Proof.
  destruct n; cbn [enter]; [done | | done].
  apply enterOpening_currentElement.
Qed.

Lemma walk_currentElement n :
  forall st, currentElement (run n st) = lastEntered n (currentElement st).
Proof.
  induction n as [element l IH | jsxNode l IH | l IH] using node_nested_ind;
    intros st; rewrite walk_unfold;
    (assert (Hfold : forall st c, currentElement st = c ->
               currentElement (foldl (fun st k => run k st) st l) =
                 foldl (fun c k => lastEntered k c) c l);
     [ clear st; induction IH as [|k l Hk _ IHl]; intros st c Hc; [done |];
       cbn [foldl]; apply IHl; by rewrite Hk, Hc
     | ]);
    (rewrite (Hfold _ _ (enter_currentElement _ st)); by destruct l).
Qed.

End Walk.

(** C2, as amended. In a tree of the parser's shape, where every opening
    tag is the first sub-node of its full element, an opening tag extracts
    its text from that element, its nearest ancestor full element: the
    insertions and counters of the traversal are those of a traversal that
    scopes the enclosing element to its subtree. The context itself is one
    reference that is overwritten on entering a full element and is not
    reverted on leaving a subtree: after a traversal it is the last full
    element entered. *)
Theorem enclosing_element_context
    (options : ResolvedOptions) (path file : string) (n : node) :
  babel_shaped n = true ->
  (forall ctx st,
     outcome (walk options path file n st) =
       outcome (walkScoped options path file ctx n st))
  /\ (forall st,
        currentElement (walk options path file n st) =
          lastEntered n (currentElement st)).
Proof.
  intros Hshape. split.
  - intros ctx st. apply babel_shaped_below in Hshape as [Hbelow Hopen].
    apply walk_agrees; [done | done | by rewrite Hopen].
  - apply walk_currentElement.
Qed.

Lemma enclosing_element_context_witness :
  outcome (walk defaultOptions "src/App.tsx" "App.tsx" buttonTree
             (initialWalkState buttonSource initialStats)) =
    outcome (walkScoped defaultOptions "src/App.tsx" "App.tsx" None buttonTree
               (initialWalkState buttonSource initialStats))
  /\ currentElement (walk defaultOptions "src/App.tsx" "App.tsx" buttonTree
                       (initialWalkState buttonSource initialStats)) =
       Some buttonElement.
Proof.
  destruct (enclosing_element_context defaultOptions "src/App.tsx" "App.tsx"
              buttonTree eq_refl) as [Hout Hctx].
  split; [apply Hout | rewrite Hctx; reflexivity].
Defined.

(** C2, as stated, fails: once the traversal of
    [<Button onClick={fn}>Click me</Button>] has left every subtree, the
    context is still that element; it has not reverted to [idle]. *)
Lemma context_not_reverted :
  currentElement (initialWalkState buttonSource initialStats) = None
  /\ currentElement (walk defaultOptions "src/App.tsx" "App.tsx" buttonTree
                       (initialWalkState buttonSource initialStats)) =
       Some buttonElement
  /\ currentElement (walk defaultOptions "src/App.tsx" "App.tsx" buttonTree
                       (initialWalkState buttonSource initialStats)) <>
       currentElement (initialWalkState buttonSource initialStats).
Proof.
  split; [reflexivity |]. split; [vm_compute; reflexivity | vm_compute; discriminate].
Qed.

(** ** The example of section 8 *)

Example transform_button :
  transform sampleHost defaultOptions buttonSource "/work/src/App.tsx" initialStats =
    (Some {| code := Some (
       "<Button data-gm-id=" +:+ Js.dquote +:+ "src/App.tsx:6:8" +:+ Js.dquote +:+
       " data-gm-name=" +:+ Js.dquote +:+ "Button" +:+ Js.dquote +:+
       " data-gm-path=" +:+ Js.dquote +:+ "src/App.tsx" +:+ Js.dquote +:+
       " data-gm-line=" +:+ Js.dquote +:+ "6" +:+ Js.dquote +:+
       " data-gm-file=" +:+ Js.dquote +:+ "App.tsx" +:+ Js.dquote +:+
       " data-gm-content=" +:+ Js.dquote +:+
       "%7B%22text%22%3A%22Click%20me%22%7D" +:+ Js.dquote +:+
       " onClick={fn}>Click me</Button>") |},
     {| totalFiles := 1; processedFiles := 1; totalElements := 1; skippedElements := 0 |}).
Proof. vm_compute. reflexivity. Qed.

(** * Further properties *)

(** ** File selection *)

Lemma prefix_spec p s : String.prefix p s = true <-> exists post, s = p +:+ post.
Proof.
  revert s. induction p as [|a p IH]; intros s.
  - split; [intros _; by exists s | intros _; by destruct s].
  - destruct s as [|b s]; cbn [String.prefix].
    + split; [done | intros [post H]; rewrite append_cons in H; discriminate].
    + destruct (ascii_dec a b) as [-> | Hne].
      * rewrite IH. split; intros [post H]; exists post.
        -- by rewrite append_cons, H.
        -- rewrite append_cons in H. by injection H.
      * split; [done |]. intros [post H]. rewrite append_cons in H.
        injection H as H _. congruence.
Qed.

Lemma includes_spec s sub : Js.includes s sub = true <-> substring_of sub s.
Proof.
  unfold substring_of. induction s as [|c s IH]; cbn [Js.includes].
  - rewrite orb_false_r, prefix_spec. split.
    + intros [post H]. by exists "", post.
    + intros (pre & post & H). destruct pre; [by exists post |].
      rewrite append_cons in H. discriminate.
  - rewrite orb_true_iff, IH, prefix_spec. split.
    + intros [[post H] | (pre & post & H)].
      * by exists "", post.
      * exists (String c pre), post. by rewrite append_cons, H.
    + intros (pre & post & H). destruct pre as [|c' pre].
      * left. by exists post.
      * right. rewrite append_cons in H. injection H as _ H. by exists pre, post.
Qed.

(** X2. A file is selected exactly when its extension is one of [include]
    and no entry of [exclude] occurs anywhere in its path. *)
Theorem shouldProcessFile_spec (h : Host) (id : string) (options : ResolvedOptions) :
  shouldProcessFile h id options = true <->
  path_extname h id ∈ include options
  /\ forall e, e ∈ exclude options -> ~ substring_of e id.
Proof.
  unfold shouldProcessFile.
  destruct (bool_decide_reflect (path_extname h id ∈ include options)) as [Hin | Hout];
    simpl; [| by split; [| intros [? _]]].
  rewrite negb_true_iff. split.
  - intros Hex. split; [done |]. intros e He Hsub.
    apply includes_spec in Hsub.
    assert (existsb (fun e => Js.includes id e) (exclude options) = true); [| congruence].
    apply existsb_exists. exists e. split; [by apply list_elem_of_In | done].
  - intros [_ Hall]. apply not_true_is_false. intros Hex.
    apply existsb_exists in Hex as (e & He & Hinc).
    apply (Hall e); [by apply list_elem_of_In | by apply includes_spec].
Qed.

(** X1. A file that is not selected (its extension is not listed, or an
    [exclude] entry occurs in its path; the empty entry occurs in every
    path) gets the result [null] and leaves every counter as it was. *)
Theorem transform_not_selected
    (h : Host) (options : ResolvedOptions) (code id : string) (s : ProcessingStats) :
  path_extname h id ∉ include options
  \/ (exists e, e ∈ exclude options /\ (e = "" \/ substring_of e id)) ->
  transform h options code id s = (None, s).
Proof.
  intros H. unfold transform.
  replace (shouldProcessFile h id options) with false; [done |].
  symmetry. unfold shouldProcessFile.
  destruct H as [Hout | (e & He & Hsub)].
  - by rewrite bool_decide_eq_false_2.
  - destruct (bool_decide (path_extname h id ∈ include options)); [| done].
    simpl. apply negb_false_iff, existsb_exists.
    exists e. split; [by apply list_elem_of_In |].
    apply includes_spec. destruct Hsub as [-> | Hsub]; [by exists "", id | done].
Qed.

Lemma transform_not_selected_witness :
  transform sampleHost defaultOptions buttonSource
    "/work/node_modules/pkg/App.tsx" initialStats = (None, initialStats).
Proof.
  apply transform_not_selected. right. exists "node_modules".
  split; [exact (list_elem_of_here "node_modules" []) | right].
  exists "/work/", "/pkg/App.tsx". reflexivity.
Defined.

(** ** Classification of one tag *)

Lemma is3DElement_named n :
  is3DElement n = true ->
  Js.truthy n = true /\ n <> "Fragment" /\ n <> "React.Fragment".
Proof.
  unfold is3DElement, THREE_D_ELEMENTS. intros H%bool_decide_eq_true.
  apply elem_of_list_to_set in H.
  repeat (apply elem_of_cons in H as [-> | H]; [done |]).
  by apply elem_of_nil in H.
Qed.

(** X3. A tag whose name is in the 3D list is, with [filter3DElements] on,
    skipped and counted once as skipped, nothing being inserted; with the
    filter off it is processed like any other tag. *)
Theorem three_d_elements_filtered
    (options : ResolvedOptions) (path file : string)
    (jsxNode : JSXNode) (st : WalkState) (tag : string) :
  extractElementName jsxNode = Some tag ->
  is3DElement tag = true ->
  (filter3DElements options = true ->
   enterOpening options path file jsxNode st = incr_skippedElements st)
  /\ (filter3DElements options = false ->
      enterOpening options path file jsxNode st =
        if Js.truthy (tagAttributes options path file (currentElement st) jsxNode tag)
        then tag_element (getInsertPosition jsxNode)
               (tagAttributes options path file (currentElement st) jsxNode tag) st
        else st).
Proof.
  intros Hname H3d. destruct (is3DElement_named _ H3d) as (Ht & Hf & Hrf).
  apply String.eqb_neq in Hf, Hrf. split; intros Hflt.
  - rewrite enterOpening_skipped; rewrite Hname; simpl; [by rewrite Ht |].
    by rewrite Ht, Hf, Hrf, Hflt, H3d.
  - apply enterOpening_processed; [done |]. simpl.
    by rewrite Ht, Hf, Hrf, Hflt.
Qed.

Lemma three_d_elements_filtered_witness :
  enterOpening defaultOptions "src/Scene.tsx" "Scene.tsx" meshTag
    (initialWalkState "<mesh position={[0,0,0]} />" initialStats) =
  incr_skippedElements (initialWalkState "<mesh position={[0,0,0]} />" initialStats).
Proof.
  exact (proj1 (three_d_elements_filtered defaultOptions "src/Scene.tsx" "Scene.tsx"
                  meshTag (initialWalkState "<mesh position={[0,0,0]} />" initialStats)
                  "mesh" eq_refl eq_refl) eq_refl).
Defined.

(** X4. A tag whose name is neither an identifier nor a member expression,
    or an identifier without a (non-empty) name, is passed over silently:
    nothing is inserted and no counter moves. *)
Theorem unnamed_tag_ignored
    (options : ResolvedOptions) (path file : string)
    (jsxNode : JSXNode) (st : WalkState) :
  (name_type (jsx_name jsxNode) <> "JSXIdentifier"
   /\ name_type (jsx_name jsxNode) <> "JSXMemberExpression")
  \/ (name_type (jsx_name jsxNode) = "JSXIdentifier"
      /\ (name_name (jsx_name jsxNode) = None
          \/ name_name (jsx_name jsxNode) = Some "")) ->
  enterOpening options path file jsxNode st = st.
Proof.
  intros H.
  assert (Hname : extractElementName jsxNode = None
                  \/ extractElementName jsxNode = Some "").
  { unfold extractElementName. destruct H as [[Hi Hm] | [Hi Hn]].
    - apply String.eqb_neq in Hi, Hm. rewrite Hi, Hm. by left.
    - rewrite Hi. simpl. destruct Hn as [-> | ->]; auto. }
  rewrite enterOpening_skipped; destruct Hname as [-> | ->]; done.
Qed.

Lemma unnamed_tag_ignored_witness :
  enterOpening defaultOptions "src/Icon.tsx" "Icon.tsx" namespacedTag
    (initialWalkState "<svg:rect/>" initialStats) =
  initialWalkState "<svg:rect/>" initialStats.
Proof.
  apply unnamed_tag_ignored. left. split; discriminate.
Defined.

Lemma buildDataAttributes_truthy options data :
  Js.truthy (buildDataAttributes options data) =
    includeId options || includeName options || includePath options
    || includeLine options || includeFile options
    || includeContent options && hasContent (content data).
Proof.
  unfold buildDataAttributes. rewrite dataAttributeList_facets.
  unfold facetOrder, facetPresent, facetEnabled.
  destruct (includeId options), (includeName options), (includePath options),
    (includeLine options), (includeFile options), (includeContent options),
    (hasContent (content data)); reflexivity.
Qed.

(** X5. A tag that is not skipped is annotated exactly when some facet
    produces output: when one of the five basic facets is enabled, or the
    content facet is enabled and the tag has a content snapshot. Otherwise
    the tag is left alone and is counted neither as tagged nor as
    skipped. *)
Theorem tagged_iff_facet_present
    (options : ResolvedOptions) (path file : string)
    (jsxNode : JSXNode) (st : WalkState) (tag : string) :
  extractElementName jsxNode = Some tag ->
  shouldSkipElement (Some tag) options = false ->
  enterOpening options path file jsxNode st =
    if includeId options || includeName options || includePath options
       || includeLine options || includeFile options
       || includeContent options
          && hasContent (buildContentObject (extractTextContent (currentElement st))
                           (extractElementAttributes (attributes jsxNode)))
    then tag_element (getInsertPosition jsxNode)
           (tagAttributes options path file (currentElement st) jsxNode tag) st
    else st.
Proof.
  intros Hname Hskip. rewrite (enterOpening_processed _ _ _ _ _ _ Hname Hskip).
  cbv zeta. unfold tagAttributes at 1. by rewrite buildDataAttributes_truthy.
Qed.

Lemma tagged_iff_facet_present_witness :
  enterOpening contentOnlyOptions "src/App.tsx" "App.tsx" buttonTag
    (set_currentElement (Some dynamicElement) (initialWalkState buttonSource initialStats))
  = set_currentElement (Some dynamicElement) (initialWalkState buttonSource initialStats).
Proof.
  exact (tagged_iff_facet_present contentOnlyOptions "src/App.tsx" "App.tsx" buttonTag
           (set_currentElement (Some dynamicElement)
              (initialWalkState buttonSource initialStats))
           "Button" eq_refl eq_refl).
Defined.

(** ** Effect of a traversal *)

Lemma join_cons sep a l :
  Js.join sep (a :: l) =
    a +:+ match l with [] => "" | _ => sep +:+ Js.join sep l end.
Proof. destruct l; [by rewrite append_nil_r | done]. Qed.

Lemma buildDataAttributes_prefix options data :
  buildDataAttributes options data <> "" ->
  exists rest,
    buildDataAttributes options data = " data-" +:+ tagPrefix options +:+ "-" +:+ rest.
Proof.
  unfold buildDataAttributes. rewrite dataAttributeList_facets.
  destruct (List.filter (facetPresent options data) facetOrder) as [|f l]; [done |].
  intros _. cbn [map]. generalize (map (facetAttribute options data) l). intros tl.
  cbn [length]. replace (0 <? N.of_nat (S (length tl))) with true by reflexivity.
  rewrite join_cons. unfold facetAttribute, dataAttribute.
  eexists. rewrite !append_assoc. reflexivity.
Qed.

Lemma annotates_refl options st : annotates options [] st st.
Proof.
  exists [], 0%nat. rewrite app_nil_r, !N.add_0_r. repeat split; auto.
Qed.

Lemma annotates_trans options tags1 tags2 st1 st2 st3 :
  annotates options tags1 st1 st2 ->
  annotates options tags2 st2 st3 ->
  annotates options (tags1 ++ tags2) st1 st3.
Proof.
  intros (a1 & k1 & Ho1 & Hi1 & Hc1 & Hs1 & Ht1 & Hp1 & He1 & Hle1 & Hall1)
         (a2 & k2 & Ho2 & Hi2 & Hc2 & Hs2 & Ht2 & Hp2 & He2 & Hle2 & Hall2).
  exists (a1 ++ a2), (k1 + k2)%nat.
  rewrite Ho2, Hi2, Hc2, Hs2, Ht2, Hp2, He2, Ho1, Hi1, Hc1, Hs1, Ht1, Hp1, He1.
  rewrite !length_app, <- app_assoc. repeat split; try done; try lia.
  apply Forall_app. split; [eapply Forall_impl; [exact Hall1 |]
                           | eapply Forall_impl; [exact Hall2 |]];
    intros ins [(j & Hj & Hoff) Hrest]; (split; [| done]);
    exists j; (split; [| done]); apply elem_of_app; auto.
Qed.

Lemma annotates_enterOpening options path file jsxNode st :
  annotates options [jsxNode] st (enterOpening options path file jsxNode st).
Proof.
  destruct (shouldSkipElement (extractElementName jsxNode) options) eqn:Hskip.
  - rewrite enterOpening_skipped by done.
    destruct (Js.truthy_opt _).
    + exists [], 1%nat. simpl. rewrite app_nil_r, N.add_0_r. repeat split; auto.
    + exists [], 0%nat. simpl. rewrite app_nil_r, !N.add_0_r. repeat split; auto.
  - destruct (extractElementName jsxNode) as [tag|] eqn:Hname; [| done].
    rewrite (enterOpening_processed _ _ _ _ _ _ Hname Hskip). cbv zeta.
    destruct (Js.truthy _) eqn:Ht.
    + exists [(getInsertPosition jsxNode,
               tagAttributes options path file (currentElement st) jsxNode tag)], 0%nat.
      simpl. rewrite N.add_0_r. repeat split; auto.
      constructor; [| constructor]. simpl. split.
      * exists jsxNode. split; [apply list_elem_of_here | done].
      * apply buildDataAttributes_prefix. by apply truthy_spec.
    + exists [], 0%nat. simpl. rewrite app_nil_r, !N.add_0_r. repeat split; auto.
Qed.

Lemma annotates_enter options path file n st :
  annotates options
    (match n with JSXOpeningElementNode jsxNode _ => [jsxNode] | _ => [] end)
    st (enter options path file n st).
Proof.
  destruct n as [element l | jsxNode l | l]; cbn [enter].
  - exists [], 0%nat. simpl. rewrite app_nil_r, !N.add_0_r. repeat split; auto.
  - apply annotates_enterOpening.
  - apply annotates_refl.
Qed.

Lemma annotates_walk options path file n :
  forall st, annotates options (openingTags n) st (walk options path file n st).
Proof.
  induction n as [element l IH | jsxNode l IH | l IH] using node_nested_ind;
    intros st; rewrite walk_unfold;
    (assert (Hfold : forall st,
               annotates options (flat_map openingTags l) st
                 (foldl (fun st k => walk options path file k st) st l));
     [ clear st; induction IH as [|k l Hk _ IHl]; intros st;
       [apply annotates_refl | cbn [foldl flat_map]; eapply annotates_trans; eauto]
     | ]).
  - exact (annotates_trans options [] _ _ _ _
             (annotates_enter options path file (JSXElementNode element l) st)
             (Hfold _)).
  - exact (annotates_trans options [jsxNode] _ _ _ _
             (annotates_enter options path file (JSXOpeningElementNode jsxNode l) st)
             (Hfold _)).
  - exact (annotates_trans options [] _ _ _ _
             (annotates_enter options path file (OtherNode l) st)
             (Hfold _)).
Qed.

(** X6. A traversal never touches the original text, the insertions made
    before it or the per-file counters; it only appends insertions, counts
    each of them as one tagged element, and never lowers the skipped
    counter. A tag is tagged or skipped but not both: the two counts
    together grow by at most the number of opening tags in the tree. *)
Theorem walk_accounting
    (options : ResolvedOptions) (path file : string) (n : node) (st : WalkState) :
  exists added : list (N * string),
    original (magicString (walk options path file n st)) = original (magicString st)
    /\ insertions (magicString (walk options path file n st)) =
         insertions (magicString st) ++ added
    /\ changedElementsCount (walk options path file n st) =
         changedElementsCount st + N.of_nat (length added)
    /\ skippedElements (stats st) <= skippedElements (stats (walk options path file n st))
    /\ N.of_nat (length added)
       + (skippedElements (stats (walk options path file n st))
          - skippedElements (stats st))
       <= N.of_nat (length (openingTags n))
    /\ totalFiles (stats (walk options path file n st)) = totalFiles (stats st)
    /\ processedFiles (stats (walk options path file n st)) = processedFiles (stats st)
    /\ totalElements (stats (walk options path file n st)) = totalElements (stats st).
Proof.
  destruct (annotates_walk options path file n st)
    as (added & k & Ho & Hi & Hc & Hs & Ht & Hp & He & Hle & _).
  exists added. rewrite Ho, Hi, Hc, Hs, Ht, Hp, He. repeat split; lia.
Qed.

(** X7. Every insertion a traversal registers is placed at the offset the
    resolver gives for one of the opening tags of the tree, and its text is
    an attribute block: it starts with one space followed by
    [data-<prefix>-]. *)
Theorem walk_insertions_well_formed
    (options : ResolvedOptions) (path file : string) (n : node) (st : WalkState) :
  exists added : list (N * string),
    insertions (magicString (walk options path file n st)) =
      insertions (magicString st) ++ added
    /\ Forall (fun ins : N * string =>
                 (exists jsxNode,
                    jsxNode ∈ openingTags n /\ ins.1 = getInsertPosition jsxNode)
                 /\ exists rest,
                      ins.2 = " data-" +:+ tagPrefix options +:+ "-" +:+ rest)
              added.
Proof.
  destruct (annotates_walk options path file n st)
    as (added & k & _ & Hi & _ & _ & _ & _ & _ & _ & Hall).
  by exists added.
Qed.

(** ** Per-file results, continued *)

(** X8. For a selected file that parses, [transform] never returns
    [null]: the result carries the text of the editor the traversal ends
    with, whose original text is the source. [totalFiles] and
    [processedFiles] each grow by one, [totalElements] grows by exactly the
    number of insertions made in the file, and [skippedElements] does not
    decrease. *)
Theorem transform_success
    (h : Host) (options : ResolvedOptions) (code id : string)
    (s : ProcessingStats) (ast : node) :
  shouldProcessFile h id options = true ->
  parse h code = Some ast ->
  exists ms : MagicString,
    original ms = code
    /\ (transform h options code id s).1 = Some (Build_TransformResult (toString ms))
    /\ totalFiles (transform h options code id s).2 = totalFiles s + 1
    /\ processedFiles (transform h options code id s).2 = processedFiles s + 1
    /\ totalElements (transform h options code id s).2 =
         totalElements s + N.of_nat (length (insertions ms))
    /\ skippedElements s <= skippedElements (transform h options code id s).2.
Proof.
  intros Hsel Hparse. unfold transform. rewrite Hsel, Hparse. cbn [negb fst snd].
  match goal with
  | |- context [walk ?o ?p ?f ?a ?st0] =>
    destruct (annotates_walk o p f a st0)
      as (added & k & Ho & Hi & Hc & Hs & Ht & Hp & He & _ & _);
    exists (magicString (walk o p f a st0))
  end.
  cbn [magicString changedElementsCount stats original insertions MagicString_new
       totalFiles processedFiles totalElements skippedElements app] in *.
  rewrite Ht, Hp, He, Hc, Hi, Hs. repeat split; [done | lia].
Qed.

Lemma transform_success_witness :
  (transform sampleHost defaultOptions buttonSource "/work/src/App.tsx" initialStats).2
  = {| totalFiles := 1; processedFiles := 1; totalElements := 1; skippedElements := 0 |}.
Proof.
  destruct (transform_success sampleHost defaultOptions buttonSource
              "/work/src/App.tsx" initialStats buttonTree eq_refl eq_refl)
    as (ms & _ & _ & _ & _ & _ & _).
  reflexivity.
Defined.

Lemma inserted_at_nil i : inserted_at i [] = "".
Proof. reflexivity. Qed.

Lemma splice_nil i s : splice [] i s = s.
Proof.
  revert i. induction s as [|c s IH]; intros i; cbn [splice inserted_at];
    rewrite append_nil_l; [done | by rewrite IH].
Qed.

Lemma toString_new source : toString (MagicString_new source) = Some source.
Proof. unfold toString. simpl. by rewrite splice_nil. Qed.

Lemma walk_preserves
    (R : WalkState -> WalkState -> Prop) options path file :
  (forall st, R st st) ->
  (forall a b c, R a b -> R b c -> R a c) ->
  (forall n st, R st (enter options path file n st)) ->
  forall n st, R st (walk options path file n st).
Proof.
  intros Hrefl Htrans Henter.
  induction n as [element l IH | jsxNode l IH | l IH] using node_nested_ind;
    intros st; rewrite walk_unfold;
    (assert (Hfold : forall st,
               R st (foldl (fun st k => walk options path file k st) st l));
     [ clear st; induction IH as [|k l Hk _ IHl]; intros st;
       [apply Hrefl | cbn [foldl]; eapply Htrans; [apply Hk | apply IHl]]
     | ]).
  - exact (Htrans _ _ _ (Henter (JSXElementNode element l) st) (Hfold _)).
  - exact (Htrans _ _ _ (Henter (JSXOpeningElementNode jsxNode l) st) (Hfold _)).
  - exact (Htrans _ _ _ (Henter (OtherNode l) st) (Hfold _)).
Qed.

Lemma walk_silent options path file n st :
  includeId options = false -> includeName options = false ->
  includePath options = false -> includeLine options = false ->
  includeFile options = false -> includeContent options = false ->
  magicString (walk options path file n st) = magicString st
  /\ changedElementsCount (walk options path file n st) = changedElementsCount st.
Proof.
  intros H1 H2 H3 H4 H5 H6. revert n st.
  apply (walk_preserves
           (fun a b => magicString b = magicString a
                       /\ changedElementsCount b = changedElementsCount a)).
  - done.
  - intros a b c [-> ->] [-> ->]. done.
  - intros [element l | jsxNode l | l] st; cbn [enter]; [done | | done].
    destruct (shouldSkipElement (extractElementName jsxNode) options) eqn:Hskip.
    + rewrite enterOpening_skipped by done. by destruct (Js.truthy_opt _).
    + destruct (extractElementName jsxNode) as [tag|] eqn:Hname; [| done].
      rewrite (enterOpening_processed _ _ _ _ _ _ Hname Hskip). cbv zeta.
      unfold tagAttributes. rewrite buildDataAttributes_truthy.
      by rewrite H1, H2, H3, H4, H5, H6.
Qed.

(** X9. With all six facets disabled the plugin changes no text: a
    selected file that parses is returned with its source text as it was
    (the result is still not [null]) and no element is counted as tagged. *)
Theorem disabled_facets_identity
    (h : Host) (options : ResolvedOptions) (source id : string)
    (s : ProcessingStats) (ast : node) :
  includeId options = false -> includeName options = false ->
  includePath options = false -> includeLine options = false ->
  includeFile options = false -> includeContent options = false ->
  shouldProcessFile h id options = true ->
  parse h source = Some ast ->
  (transform h options source id s).1 = Some (Build_TransformResult (Some source))
  /\ totalElements (transform h options source id s).2 = totalElements s.
Proof.
  intros H1 H2 H3 H4 H5 H6 Hsel Hparse.
  unfold transform. rewrite Hsel, Hparse. cbn [negb fst snd].
  match goal with
  | |- context [walk ?o ?p ?f ?a ?st0] =>
    destruct (walk_silent o p f a st0 H1 H2 H3 H4 H5 H6) as [Hms Hc];
    destruct (annotates_walk o p f a st0)
      as (_ & _ & _ & _ & _ & _ & _ & _ & He & _ & _)
  end.
  rewrite Hms, Hc, He. cbn [magicString changedElementsCount stats totalElements].
  rewrite toString_new, N.add_0_r. done.
Qed.

Lemma disabled_facets_identity_witness :
  transform sampleHost silentOptions buttonSource "/work/src/App.tsx" initialStats =
    (Some (Build_TransformResult (Some buttonSource)),
     {| totalFiles := 1; processedFiles := 1; totalElements := 0; skippedElements := 0 |}).
Proof.
  destruct (disabled_facets_identity sampleHost silentOptions buttonSource
              "/work/src/App.tsx" initialStats buttonTree
              eq_refl eq_refl eq_refl eq_refl eq_refl eq_refl eq_refl eq_refl)
    as [Hres _].
  reflexivity.
Defined.

Lemma transform_counters h options source id s :
  totalFiles s <= totalFiles (transform h options source id s).2
  /\ processedFiles (transform h options source id s).2 + totalFiles s =
       totalFiles (transform h options source id s).2 + processedFiles s
  /\ totalElements s <= totalElements (transform h options source id s).2
  /\ skippedElements s <= skippedElements (transform h options source id s).2.
Proof.
  unfold transform.
  destruct (shouldProcessFile h id options); cbn [negb snd]; [| lia].
  destruct (parse h source) as [ast|]; cbn [snd totalFiles processedFiles
    totalElements skippedElements]; [| lia].
  match goal with
  | |- context [walk ?o ?p ?f ?a ?st0] =>
    destruct (annotates_walk o p f a st0)
      as (added & k & _ & _ & _ & Hs & Ht & Hp & He & _ & _)
  end.
  cbn [stats totalFiles processedFiles totalElements skippedElements] in *.
  rewrite Hs, Ht, Hp, He. lia.
Qed.

(** X10. Over any sequence of [transform] calls of one plugin instance no
    counter ever decreases, and [processedFiles] grows exactly as
    [totalFiles] does: a file is counted as processed whenever it is
    counted as seen, whether it parsed or not. *)
Theorem counters_over_calls
    (h : Host) (options : ResolvedOptions)
    (files : list (string * string)) (s : ProcessingStats) :
  totalFiles s <= totalFiles (transformAll h options files s)
  /\ processedFiles (transformAll h options files s) + totalFiles s =
       totalFiles (transformAll h options files s) + processedFiles s
  /\ totalFiles (transformAll h options files s) <= totalFiles s + N.of_nat (length files)
  /\ totalElements s <= totalElements (transformAll h options files s)
  /\ skippedElements s <= skippedElements (transformAll h options files s).
Proof.
  unfold transformAll. revert s.
  induction files as [|[source id] files IH]; intros s; cbn [foldl length].
  - lia.
  - specialize (IH (transform h options source id s).2).
    pose proof (transform_counters h options source id s) as Hstep.
    assert (Hone : totalFiles (transform h options source id s).2 <= totalFiles s + 1).
    { unfold transform.
      destruct (shouldProcessFile h id options); cbn [negb snd]; [| lia].
      destruct (parse h source) as [ast|]; cbn [snd totalFiles]; [| lia].
      match goal with
      | |- context [walk ?o ?p ?f ?a ?st0] =>
        destruct (annotates_walk o p f a st0)
          as (_ & _ & _ & _ & _ & _ & Ht & _)
      end.
      rewrite Ht. cbn [stats totalFiles]. lia. }
    cbn [fst snd] in *. lia.
Qed.

(** ** Attribute mapping *)







(** ** Content snapshot *)

(** X13. The content snapshot never holds an empty string: a field is set
    only from a non-empty source, [text] from the extracted text and
    [placeholder] / [className] from the attribute of that name. *)
Theorem content_fields_nonempty
    (textContent : string) (attrs : gmap string string) (key value : string) :
  (key, value) ∈ content_entries (buildContentObject textContent attrs) ->
  value <> ""
  /\ ((key = "text" /\ value = textContent)
      \/ (key = "placeholder" /\ attrs !! "placeholder" = Some value)
      \/ (key = "className" /\ attrs !! "className" = Some value)).
Proof.
  unfold content_entries, buildContentObject. cbn [text placeholder className].
  intros H. rewrite !elem_of_app in H. destruct H as [H | [H | H]].
  - destruct (Js.truthy textContent) eqn:Ht; [| by apply elem_of_nil in H].
    apply list_elem_of_singleton in H. injection H as -> ->.
    split; [by apply truthy_spec | by left].
  - destruct (attrs !! "placeholder") as [v|] eqn:Hv; simpl in H;
      [| by apply elem_of_nil in H].
    destruct (Js.truthy v) eqn:Ht; [| by apply elem_of_nil in H].
    apply list_elem_of_singleton in H. injection H as -> ->.
    split; [by apply truthy_spec | right; by left].
  - destruct (attrs !! "className") as [v|] eqn:Hv; simpl in H;
      [| by apply elem_of_nil in H].
    destruct (Js.truthy v) eqn:Ht; [| by apply elem_of_nil in H].
    apply list_elem_of_singleton in H. injection H as -> ->.
    split; [by apply truthy_spec | right; by right].
Qed.

Lemma content_fields_nonempty_witness :
  content_entries
    (buildContentObject "" (extractElementAttributes (attributes inputTag)))
  = [("placeholder", "Name"); ("className", "field")].
Proof.
  destruct (content_fields_nonempty ""
              (extractElementAttributes (attributes inputTag))
              "placeholder" "Name" (list_elem_of_here _ _)) as [_ _].
  reflexivity.
Defined.






(** ** Extracted text *)

Lemma rev_app_spec s acc : String.rev_app s acc = String.rev s +:+ acc.
Proof.
  unfold String.rev. revert acc. induction s as [|c s IH]; intros acc; [done |].
  cbn [String.rev_app]. rewrite (IH (String c acc)), (IH (String c "")).
  by rewrite append_assoc, append_cons, append_nil_l.
Qed.

Lemma rev_cons c s : String.rev (String c s) = String.rev s +:+ String c "".
Proof. unfold String.rev at 1. cbn [String.rev_app]. apply rev_app_spec. Qed.

Lemma rev_append s1 s2 : String.rev (s1 +:+ s2) = String.rev s2 +:+ String.rev s1.
Proof.
  induction s1 as [|c s1 IH]; [by rewrite append_nil_l, append_nil_r |].
  by rewrite append_cons, !rev_cons, IH, append_assoc.
Qed.

Lemma rev_involutive s : String.rev (String.rev s) = s.
Proof.
  induction s as [|c s IH]; [done |].
  by rewrite rev_cons, rev_append, IH.
Qed.

Lemma trimStart_clean s : starts_with_space (Js.trimStart s) = false.
Proof.
  induction s as [|c s IH]; [done |]. cbn [Js.trimStart].
  destruct (Js.is_white_space c) eqn:E; [done | by simpl].
Qed.

Lemma trimStart_id s : starts_with_space s = false -> Js.trimStart s = s.
Proof. destruct s as [|c s]; [done |]. simpl. by intros ->. Qed.

Lemma trimStart_suffix s : exists p, s = p +:+ Js.trimStart s.
Proof.
  induction s as [|c s [p IH]]; [by exists "" |]. cbn [Js.trimStart].
  destruct (Js.is_white_space c).
  - exists (String c p). by rewrite append_cons, <- IH.
  - by exists "".
Qed.

Lemma trim_clean s :
  starts_with_space (Js.trim s) = false
  /\ starts_with_space (String.rev (Js.trim s)) = false.
Proof.
  unfold Js.trim, Js.trimEnd. set (t := Js.trimStart s).
  split; [| rewrite rev_involutive; apply trimStart_clean].
  destruct (trimStart_suffix (String.rev t)) as [p Hp].
  assert (Ht : t = String.rev (Js.trimStart (String.rev t)) +:+ String.rev p).
  { rewrite <- rev_append, <- Hp. by rewrite rev_involutive. }
  pose proof (trimStart_clean s) as Hclean. fold t in Hclean.
  destruct (String.rev (Js.trimStart (String.rev t))) as [|c u]; [done |].
  rewrite Ht, append_cons in Hclean. exact Hclean.
Qed.

Lemma trim_idempotent s : Js.trim (Js.trim s) = Js.trim s.
Proof.
  destruct (trim_clean s) as [Hstart Hend].
  unfold Js.trim at 1, Js.trimEnd.
  rewrite (trimStart_id _ Hstart), (trimStart_id _ Hend). apply rev_involutive.
Qed.

(** X15. The extracted text never starts and never ends with white space,
    whatever the children are; it is empty for a missing element and for
    an element without a children array. *)
Theorem extracted_text_trimmed (element : option JSXElement) :
  starts_with_space (extractTextContent element) = false
  /\ starts_with_space (String.rev (extractTextContent element)) = false
  /\ extractTextContent None = ""
  /\ extractTextContent (Some {| children := None |}) = "".
Proof.
  split; [| split; [| done]]; unfold extractTextContent;
    (destruct (element ≫= children) as [cs|]; [| done]);
    apply trim_clean.
Qed.

Lemma childText_blank child :
  isLiteralChild child = false
  \/ (child_type child = "JSXText"
      /\ Js.trim (Js.nullish (child_value child) "") = "") ->
  childText child = "".
Proof.
  rewrite childText_kind. unfold isLiteralChild, childKind.
  intros [H | [Hty Hblank]].
  - by destruct (String.eqb (child_type child) "JSXText");
      [| destruct (String.eqb (child_type child) "JSXExpressionContainer");
         [destruct (child_expression child) as [e|];
          [destruct (String.eqb (expr_type e) "StringLiteral") |] |]].
  - by rewrite Hty.
Qed.

(** X16. A child that is dynamic, or literal text made of white space
    only (the line breaks and indentation between tags), does not affect
    the extracted text: the text is the same as without that child. *)
Theorem blank_child_ignored (before after : list JSXChild) (child : JSXChild) :
  isLiteralChild child = false
  \/ (child_type child = "JSXText"
      /\ Js.trim (Js.nullish (child_value child) "") = "") ->
  extractTextContent (Some {| children := Some (before ++ child :: after) |}) =
  extractTextContent (Some {| children := Some (before ++ after) |}).
Proof.
  intros H%childText_blank. unfold extractTextContent. simpl.
  rewrite !map_app, !List.filter_app. cbn [map List.filter]. by rewrite H.
Qed.

Lemma blank_child_ignored_witness :
  extractTextContent
    (Some {| children :=
         Some [ {| child_type := "JSXText"; child_value := Some "  ";
                   child_expression := None |};
                {| child_type := "JSXText"; child_value := Some "Click me";
                   child_expression := None |} ] |})
  = "Click me".
Proof.
  exact (eq_trans
           (blank_child_ignored []
              [ {| child_type := "JSXText"; child_value := Some "Click me";
                   child_expression := None |} ]
              {| child_type := "JSXText"; child_value := Some "  ";
                 child_expression := None |}
              (or_intror (conj eq_refl eq_refl)))
           eq_refl).
Defined.

(** X17. An element whose only child is a piece of literal text yields
    that text with its leading and trailing white space removed (nothing
    else is changed by the final trim of the joined pieces). *)
Theorem single_text_child (child : JSXChild) :
  child_type child = "JSXText" ->
  extractTextContent (Some {| children := Some [child] |}) =
    Js.trim (Js.nullish (child_value child) "").
Proof.
  unfold extractTextContent. simpl. rewrite childText_kind. unfold childKind.
  intros ->. simpl. unfold Js.truthy.
  destruct (String.eqb_spec (Js.trim (Js.nullish (child_value child) "")) "")
    as [E|_]; simpl.
  - by rewrite E.
  - apply trim_idempotent.
Qed.

Lemma single_text_child_witness :
  extractTextContent
    (Some {| children :=
         Some [ {| child_type := "JSXText"; child_value := Some "  Click me ";
                   child_expression := None |} ] |})
  = "Click me".
Proof.
  exact (eq_trans
           (single_text_child
              {| child_type := "JSXText"; child_value := Some "  Click me ";
                 child_expression := None |} eq_refl)
           eq_refl).
Defined.

(** ** Tags that are annotated *)

(** X18. Every tag with a non-empty name other than [Fragment] and
    [React.Fragment] that the 3D filter does not catch is annotated as soon
    as one basic facet is enabled, whether it names a component or a native
    element: one insertion at the resolver's offset, one more tagged
    element, and no change to the counters in [stats]. *)
Theorem named_tag_annotated
    (options : ResolvedOptions) (path file : string)
    (jsxNode : JSXNode) (st : WalkState) (tag : string) :
  extractElementName jsxNode = Some tag ->
  tag <> "" -> tag <> "Fragment" -> tag <> "React.Fragment" ->
  filter3DElements options && is3DElement tag = false ->
  includeId options || includeName options || includePath options
  || includeLine options || includeFile options = true ->
  magicString (enterOpening options path file jsxNode st) =
    appendLeft (getInsertPosition jsxNode)
      (tagAttributes options path file (currentElement st) jsxNode tag)
      (magicString st)
  /\ changedElementsCount (enterOpening options path file jsxNode st) =
       changedElementsCount st + 1
  /\ stats (enterOpening options path file jsxNode st) = stats st.
Proof.
  intros Hname Hne Hf Hrf H3d Hfacet.
  apply truthy_spec in Hne. apply String.eqb_neq in Hf, Hrf.
  assert (Hskip : shouldSkipElement (Some tag) options = false).
  { simpl. by rewrite Hne, Hf, Hrf, H3d. }
  assert (Ht : Js.truthy
                 (tagAttributes options path file (currentElement st) jsxNode tag)
               = true).
  { unfold tagAttributes. by rewrite buildDataAttributes_truthy, Hfacet. }
  rewrite (enterOpening_processed _ _ _ _ _ _ Hname Hskip). cbv zeta.
  rewrite Ht. done.
Qed.

Lemma named_tag_annotated_witness :
  changedElementsCount
    (enterOpening defaultOptions "src/App.tsx" "App.tsx" divTag
       (initialWalkState "<div className=container>" initialStats)) = 1.
Proof.
  exact (proj1 (proj2
    (named_tag_annotated defaultOptions "src/App.tsx" "App.tsx" divTag
       (initialWalkState "<div className=container>" initialStats) "div"
       eq_refl ltac:(discriminate) ltac:(discriminate) ltac:(discriminate)
       eq_refl eq_refl))).
Defined.
